(** * AI-Horde, text generation endpoints ([horde/apis/v2/kobold.py])

    A shallow embedding of the request handlers of the text API:
    - [TextAsyncGenerate.initiate_waiting_prompt]: the kudos-gated admission
      of a text job (required kudos, shared-key budget, upfront kudos,
      shared-key token ceiling);
    - [TextAsyncGenerate.apply_style]: style application;
    - [TextAsyncStatus.delete]: cancellation of a waiting prompt;
    - [KoboldKudosTransfer.post]: the kudos transfer endpoint.

    Conventions.  Python numbers are exact here: an [int] is a [Z], a
    [float] is a rational [Q] (no rounding error of binary floating point is
    modelled; [round(x, 2)] rounds the exact value).  A [str] is a [string].
    A [dict] keyed by strings is a [gmap string _].  A handler that raises
    returns [Raise e]; the mutations it made before raising are kept in the
    state it returns next to the result. *)

From Stdlib Require Import ZArith QArith Qround Qminmax Ascii String List Lia.
From stdpp Require Import base option gmap strings list.

Import ListNotations.
Local Open Scope string_scope.
Local Open Scope Z_scope.

(** ** Python builtins used by the handlers *)

Module Py.

(** [a > b] on numbers. *)
Definition gt (a b : Q) : bool := negb (Qle_bool a b).

(** Nearest integer, ties to the even one. *)
Definition round_half_even (x : Q) : Z :=
  let f := Qfloor x in
  match (x - inject_Z f ?= 1 # 2)%Q with
  | Lt => f
  | Gt => f + 1
  | Eq => if Z.even f then f else f + 1
  end.

(** [round(x, 2)]. *)
Definition round2 (x : Q) : Q := (round_half_even (x * 100) # 100)%Q.

(** The values a JSON parameter can take. *)
Inductive value :=
| Int (z : Z)
| Float (q : Q)
| Str (s : string)
| Bool (b : bool)
| None_.

(** [d.get(key, default)]. *)
Definition dict_get (d : gmap string value) (key : string) (default : value) : value :=
  match d !! key with
  | Some v => v
  | None => default
  end.

End Py.

(** ** Exceptions ([horde.exceptions]) *)

(** The text of a message that is built from numbers with an f-string is
    kept structured: the numbers it prints are its arguments. *)
Inductive message :=
| Text (s : string)
| SharedKeyNotEnoughKudos (remaining : Z) (required : Q)
| HeavyDemandUpfront (tokens : Z) (required : Q).

Inductive exception :=
| BadRequest (msg : message) (rc : option string)
| KudosUpfront (kudos_required : Q) (username : string) (msg : message) (rc : option string)
| RequestNotFound (id : string) (request_type : string)
| UserNotFound (user_id : string)
| ValueError (msg : string)
| AttributeError (name : string)
| IndexError.

Inductive result (A : Type) :=
| Return (a : A)
| Raise (e : exception).
Arguments Return {A} a.
Arguments Raise {A} e.

(** ** The database rows the handlers touch *)

Module User.
Record t := mk { id : Z; kudos : Q; trusted : bool }.
End User.

Module SharedKey.
(** [kudos = -1] is the key without a budget limit. *)
Record t := mk { id : string; kudos : Z }.
End SharedKey.

Module Style.
Record t := mk {
  id : string;
  style_type : string;
  prompt : string;
  params : gmap string Py.value;
  nsfw : bool;
  use_count : Z;
  user : User.t;
  sharedkey : option SharedKey.t
}.
Definition use (s : t) : t :=
  mk (id s) (style_type s) (prompt s) (params s) (nsfw s) (use_count s + 1) (user s) (sharedkey s).
End Style.

Module StyleCollection.
Record t := mk {
  id : string;
  style_type : string;
  styles : list Style.t;
  use_count : Z
}.
End StyleCollection.

(** [self.existing_style] is a style or a collection of styles. *)
Inductive style_obj :=
| IsStyle (s : Style.t)
| IsCollection (c : StyleCollection.t).

Definition obj_style_type (o : style_obj) : string :=
  match o with
  | IsStyle s => Style.style_type s
  | IsCollection c => StyleCollection.style_type c
  end.

Module TextWaitingPrompt.
Record t := mk {
  id : string;
  user_id : Z;
  models : list string;
  prompt : string;
  params : gmap string Py.value;
  n : Z;
  max_length : Z;
  trusted_workers : bool;
  slow_workers : bool;
  sharedkey_id : option string
}.
Definition set_n (v : Z) (wp : t) : t :=
  mk (id wp) (user_id wp) (models wp) (prompt wp) (params wp) v (max_length wp)
     (trusted_workers wp) (slow_workers wp) (sharedkey_id wp).
End TextWaitingPrompt.

(** ** Required kudos *)

Section RequiredKudos.

(** [model_reference.get_text_model_multiplier]: the cost table. *)
Variable get_text_model_multiplier : string -> Q.

(** The loop of lines 121-124, from a running [highest_multiplier]. *)
Fixpoint highest_multiplier_from (highest_multiplier : Q) (models : list string) : Q :=
  match models with
  | [] => highest_multiplier
  | model :: rest =>
      let model_multiplier := get_text_model_multiplier model in
      highest_multiplier_from
        (if Py.gt model_multiplier highest_multiplier
         then model_multiplier else highest_multiplier)
        rest
  end.

Definition required_kudos (models : list string) (wp : TextWaitingPrompt.t) : Q :=
  let highest_multiplier := 0%Q in
  if (Z.of_nat (length models) =? 0)%Z
  then inject_Z (20 * TextWaitingPrompt.n wp)
  else
    let highest_multiplier := highest_multiplier_from highest_multiplier models in
    (Py.round2 (inject_Z (TextWaitingPrompt.max_length wp) * highest_multiplier / 21)
     * inject_Z (TextWaitingPrompt.n wp))%Q.


End RequiredKudos.

(** ** [str.format_map] with [defaultdict(str, p=prompt)] *)

Module Format.

(** Where the scanner of the format string stands: in literal text, or
    inside a replacement field whose name read so far is kept reversed. *)
Inductive mode :=
| InText
| InField (name_rev : list ascii).

Definition is_digit (c : ascii) : bool :=
  (48 <=? nat_of_ascii c)%nat && (nat_of_ascii c <=? 57)%nat.

Definition digit_value (c : ascii) : Z := Z.of_nat (nat_of_ascii c) - 48.

(** The largest index ([PY_SSIZE_T_MAX] of a 64-bit build). *)
Definition PY_SSIZE_T_MAX : Z := 2 ^ 63 - 1.

(** What [get_integer] makes of the name of a field: not a number (a
    character that is no digit was met), a number, or an error when the
    digits read so far already overflow an index. *)
Inductive integer_reading :=
| NotInteger
| Index (i : Z)
| TooManyDigits.

Fixpoint get_integer_from (accumulator : Z) (name : list ascii) : integer_reading :=
  match name with
  | [] => Index accumulator
  | c :: rest =>
      if negb (is_digit c) then NotInteger
      else if (accumulator >? (PY_SSIZE_T_MAX - digit_value c) / 10)%Z then TooManyDigits
      else get_integer_from (accumulator * 10 + digit_value c) rest
  end.

Definition get_integer (name : list ascii) : integer_reading :=
  match name with
  | [] => NotInteger
  | _ => get_integer_from 0 name
  end.

(** The value of the field [name]: a field whose name is empty or a
    number is positional, which [format_map] refuses; any other name is
    looked up in the mapping. *)
Definition get_field (mapping : string -> string) (name : list ascii) : result string :=
  match get_integer name with
  | TooManyDigits => Raise (ValueError "Too many decimal digits in format string")
  | Index _ => Raise (ValueError "Format string contains positional fields")
  | NotInteger =>
      match name with
      | [] => Raise (ValueError "Format string contains positional fields")
      | _ => Return (mapping (string_of_list_ascii name))
      end
  end.

(** Characters that start a conversion, a format specification, an
    attribute or an index inside a field. *)
Definition starts_suffix (c : ascii) : bool :=
  Ascii.eqb c "!" || Ascii.eqb c ":" || Ascii.eqb c "." || Ascii.eqb c "[".

(** [defaultdict(str, p=prompt)[key]]. *)
Definition lookup_p (prompt : string) (key : string) : string :=
  if String.eqb key "p" then prompt else "".

(** [cons c] and [app v] under the two layers of the scanner's answer. *)
Definition emit (v : string) (rest : option (result string)) : option (result string) :=
  match rest with
  | Some (Return s) => Some (Return (v ++ s))
  | other => other
  end.

(** The scanner of [template.format_map(mapping)] for the templates whose
    fields are plain names.  [None]: the template has a field with a
    conversion, a format specification, an attribute or an index, which
    this scanner does not interpret.  The format string is read from left
    to right and the first error met is the one raised. *)
Fixpoint scan (mapping : string -> string) (m : mode) (s : string)
  : option (result string) :=
  match m, s with
  | InText, EmptyString => Some (Return "")
  | InText, String c r =>
      if Ascii.eqb c "{" then
        match r with
        | EmptyString => Some (Raise (ValueError "Single '{' encountered in format string"))
        | String c2 r2 =>
            if Ascii.eqb c2 "{" then emit "{" (scan mapping InText r2)
            else scan mapping (InField []) r
        end
      else if Ascii.eqb c "}" then
        match r with
        | EmptyString => Some (Raise (ValueError "Single '}' encountered in format string"))
        | String c2 r2 =>
            if Ascii.eqb c2 "}" then emit "}" (scan mapping InText r2)
            else Some (Raise (ValueError "Single '}' encountered in format string"))
        end
      else emit (String c "") (scan mapping InText r)
  | InField name_rev, EmptyString =>
      Some (Raise (ValueError "expected '}' before end of string"))
  | InField name_rev, String c r =>
      if Ascii.eqb c "}" then
        match get_field mapping (rev name_rev) with
        | Raise e => Some (Raise e)
        | Return v => emit v (scan mapping InText r)
        end
      else if Ascii.eqb c "{" then
        Some (Raise (ValueError "unexpected '{' in field name"))
      else if starts_suffix c then None
      else scan mapping (InField (c :: name_rev)) r
  end.

Section FormatMap.
(** What [format_map] does with the templates [scan] leaves out. *)
Variable format_with_suffixes : string -> string -> result string.

(** [template.format_map(defaultdict(str, p=prompt))]. *)
Definition format_map_p (template prompt : string) : result string :=
  match scan (lookup_p prompt) InText template with
  | Some r => r
  | None => format_with_suffixes template prompt
  end.
End FormatMap.

(** *** Templates as the specification sees them *)









End Format.

(** ** [TextAsyncGenerate] *)

Module TextAsyncGenerate.

(** The attributes of the handler ([self]) the two methods read or write. *)
Record self := mk {
  args_style : option string;
  args_allow_downgrade : bool;
  user : User.t;
  username : string;
  sharedkey : option SharedKey.t;
  prompt : string;
  params : gmap string Py.value;
  models : list string;
  nsfw : bool;
  existing_style : option style_obj;
  style_kudos : bool;
  downgrade_wp_priority : bool;
  wp : option TextWaitingPrompt.t
}.

Definition set_prompt (v : string) (s : self) : self :=
  mk (args_style s) (args_allow_downgrade s) (user s) (username s) (sharedkey s) v
     (params s) (models s) (nsfw s) (existing_style s) (style_kudos s)
     (downgrade_wp_priority s) (wp s).
Definition set_params (v : gmap string Py.value) (s : self) : self :=
  mk (args_style s) (args_allow_downgrade s) (user s) (username s) (sharedkey s) (prompt s)
     v (models s) (nsfw s) (existing_style s) (style_kudos s)
     (downgrade_wp_priority s) (wp s).
Definition set_models (v : list string) (s : self) : self :=
  mk (args_style s) (args_allow_downgrade s) (user s) (username s) (sharedkey s) (prompt s)
     (params s) v (nsfw s) (existing_style s) (style_kudos s)
     (downgrade_wp_priority s) (wp s).
Definition set_nsfw (v : bool) (s : self) : self :=
  mk (args_style s) (args_allow_downgrade s) (user s) (username s) (sharedkey s) (prompt s)
     (params s) (models s) v (existing_style s) (style_kudos s)
     (downgrade_wp_priority s) (wp s).
Definition set_existing_style (v : option style_obj) (s : self) : self :=
  mk (args_style s) (args_allow_downgrade s) (user s) (username s) (sharedkey s) (prompt s)
     (params s) (models s) (nsfw s) v (style_kudos s)
     (downgrade_wp_priority s) (wp s).
Definition set_style_kudos (v : bool) (s : self) : self :=
  mk (args_style s) (args_allow_downgrade s) (user s) (username s) (sharedkey s) (prompt s)
     (params s) (models s) (nsfw s) (existing_style s) v
     (downgrade_wp_priority s) (wp s).
Definition set_downgrade_wp_priority (v : bool) (s : self) : self :=
  mk (args_style s) (args_allow_downgrade s) (user s) (username s) (sharedkey s) (prompt s)
     (params s) (models s) (nsfw s) (existing_style s) (style_kudos s)
     v (wp s).
Definition set_wp (v : option TextWaitingPrompt.t) (s : self) : self :=
  mk (args_style s) (args_allow_downgrade s) (user s) (username s) (sharedkey s) (prompt s)
     (params s) (models s) (nsfw s) (existing_style s) (style_kudos s)
     (downgrade_wp_priority s) v.

(** What a method does to rows of the database that [self] does not hold
    (or no longer holds), in the order it does it: [wp.delete()], the row of
    a collection once it is shuffled and counted (its styles are rows of
    their own), [user.record_style(kudos, contrib_type)] and
    [db.session.commit()]. *)
Inductive effect :=
| WpDelete (wp_id : string)
| CollectionUse (c : StyleCollection.t)
| RecordStyle (u : User.t) (kudos : Z) (contrib_type : string)
| Commit.

Record world := World { this : self; effects : list effect }.

(** A method: it reads and writes the world and returns or raises. *)
Definition M (A : Type) : Type := world -> result A * world.

#[export] Instance M_ret : MRet M := fun A a w => (Return a, w).
#[export] Instance M_bind : MBind M := fun A B f m w =>
  match m w with
  | (Return a, w') => f a w'
  | (Raise e, w') => (Raise e, w')
  end.

Definition get : M self := fun w => (Return (this w), w).
Definition modify (f : self -> self) : M unit :=
  fun w => (Return tt, World (f (this w)) (effects w)).
Definition raise {A} (e : exception) : M A := fun w => (Raise e, w).
Definition log (e : effect) : M unit :=
  fun w => (Return tt, World (this w) (effects w ++ [e])).
Definition lift {A} (r : result A) : M A := fun w => (r, w).

(** [self.wp], an attribute that is missing until it is assigned. *)
Definition the_wp : M TextWaitingPrompt.t :=
  s ← get;
  match wp s with
  | Some wp => mret wp
  | None => raise (AttributeError "wp")
  end.

Definition the_existing_style : M style_obj :=
  s ← get;
  match existing_style s with
  | Some o => mret o
  | None => raise (AttributeError "style_type")
  end.

(** The code of the repository that the two methods call and that is not
    part of this file's sources. *)
Record env := {
  get_text_model_multiplier : string -> Q;
  (** the constructor call [TextWaitingPrompt(...)] of lines 96-113 *)
  new_waiting_prompt : self -> TextWaitingPrompt.t;
  (** [database.count_active_workers("text")] *)
  count_active_workers : Z * Z;
  (** [database.retrieve_totals()] *)
  retrieve_totals : gmap string Z;
  (** [wp.require_upfront_kudos(totals, total_threads)] *)
  require_upfront_kudos : TextWaitingPrompt.t -> gmap string Z -> Z -> bool * Z * bool;
  (** [wp.downgrade(tokens)], the waiting prompt after it *)
  downgrade : TextWaitingPrompt.t -> Z -> TextWaitingPrompt.t;
  (** [sharedkey.is_job_within_limits(text_tokens=...)] *)
  is_job_within_limits : SharedKey.t -> Z -> bool * message;
  (** the style resolver, which [GenerateTemplate.apply_style] asks for the
      style or the collection named in the request *)
  resolve_style : string -> result style_obj;
  (** [random.shuffle], for the draw of this request *)
  shuffle : list Style.t -> list Style.t;
  (** [style.get_model_names()] *)
  get_model_names : Style.t -> list string;
  (** [str.format_map] on templates with conversions, format
      specifications, attributes or indices *)
  format_with_suffixes : string -> string -> result string
}.

Section Methods.
Variable E : env.

Definition wp_delete : M unit :=
  wp ← the_wp;
  log (WpDelete (TextWaitingPrompt.id wp)).

Definition wp_downgrade (tokens : Z) : M unit :=
  wp ← the_wp;
  modify (set_wp (Some (downgrade E wp tokens))).

(** Lines 127-138. *)
Definition sharedkey_kudos_check (required_kudos : Q) (disable_downgrade : bool) : M unit :=
  s ← get;
  match sharedkey s with
  | Some sk =>
      if negb (SharedKey.kudos sk =? -1)
         && Py.gt required_kudos (inject_Z (SharedKey.kudos sk))
      then
        if args_allow_downgrade s && negb disable_downgrade
        then modify (set_downgrade_wp_priority true)
        else
          wp_delete;;
          raise (KudosUpfront required_kudos (username s)
                   (SharedKeyNotEnoughKudos (SharedKey.kudos sk) required_kudos)
                   (Some "SharedKeyInsufficientKudos"))
      else mret tt
  | None => mret tt
  end.

(** Lines 139-151. *)
Definition upfront_kudos_check (required_kudos : Q) (needs_kudos : bool) (tokens : Z)
    (disable_downgrade : bool) : M unit :=
  s ← get;
  if needs_kudos then
    if Py.gt required_kudos (User.kudos (user s)) then
      if args_allow_downgrade s && negb disable_downgrade
      then wp_downgrade tokens
      else
        wp_delete;;
        raise (KudosUpfront required_kudos (username s)
                 (HeavyDemandUpfront tokens required_kudos) None)
    else mret tt
  else mret tt.

(** The condition of line 160: the style in use carries this shared key. *)
Definition style_has_sharedkey (s : self) (sk : SharedKey.t) : bool :=
  match existing_style s with
  | Some (IsStyle st) =>
      match Style.sharedkey st with
      | Some k => String.eqb (SharedKey.id k) (SharedKey.id sk)
      | None => false
      end
  | _ => false
  end.

(** Lines 153-162. *)
Definition sharedkey_limits_check : M unit :=
  s ← get;
  match sharedkey s with
  | Some sk =>
      wp ← the_wp;
      let '(is_in_limit, fail_message) :=
        is_job_within_limits E sk (TextWaitingPrompt.max_length wp) in
      if negb is_in_limit then
        if negb (style_has_sharedkey s sk)
        then wp_delete;; raise (BadRequest fail_message None)
        else mret tt
      else mret tt
  | None => mret tt
  end.

(** What lines 114-126 compute: the required kudos and the answer of
    [require_upfront_kudos]. *)
Definition kudos_required_of (s : self) (wp : TextWaitingPrompt.t) : Q :=
  required_kudos (get_text_model_multiplier E) (models s) wp.

Definition upfront_policy (wp : TextWaitingPrompt.t) : bool * Z * bool :=
  let '(_, total_threads) := count_active_workers E in
  require_upfront_kudos E wp (retrieve_totals E) total_threads.

(** The handler once line 96 has built the waiting prompt. *)
Definition built (w : world) : world :=
  World (set_wp (Some (new_waiting_prompt E (this w))) (this w)) (effects w).

(** The waiting prompt marked as deleted: what [wp.delete()] leaves. *)
Definition deleted (wp : TextWaitingPrompt.t) (w : world) : world :=
  World (this w) (effects w ++ [WpDelete (TextWaitingPrompt.id wp)]).

(** Lines 96-151: the waiting prompt is built and the two kudos checks run. *)
Definition kudos_checks : M unit :=
  s ← get;
  modify (set_wp (Some (new_waiting_prompt E s)));;
  wp ← the_wp;
  s ← get;
  let required_kudos := kudos_required_of s wp in
  let '(needs_kudos, tokens, disable_downgrade) := upfront_policy wp in
  sharedkey_kudos_check required_kudos disable_downgrade;;
  upfront_kudos_check required_kudos needs_kudos tokens disable_downgrade.

Definition initiate_waiting_prompt : M unit :=
  kudos_checks;;
  sharedkey_limits_check.

(** Modelled from the spec: [GenerateTemplate.apply_style], the common part
    of applying a style, is not among the sources.  The style resolver
    gives the style or the collection of the given name, or fails, and the
    handler keeps it in [self.existing_style]. *)
Definition super_apply_style (name : string) : M unit :=
  o ← lift (resolve_style E name);
  modify (set_existing_style (Some o)).

(** Lines 196-200: a collection is shuffled and counted, and its first
    style is the one used. *)
Definition resolve_collection (o : style_obj) : M Style.t :=
  match o with
  | IsStyle st => mret st
  | IsCollection c =>
      let colstyles := shuffle E (StyleCollection.styles c) in
      let c' := StyleCollection.mk (StyleCollection.id c) (StyleCollection.style_type c)
                  colstyles (StyleCollection.use_count c + 1) in
      modify (set_existing_style (Some (IsCollection c')));;
      match colstyles with
      | [] => raise IndexError
      | st :: _ =>
          log (CollectionUse c');;
          modify (set_existing_style (Some (IsStyle st)));;
          mret st
      end
  end.

(** The style a request ends up with: the style itself, or the first style
    of the shuffled collection. *)
Definition chosen_style (o : style_obj) : option Style.t :=
  match o with
  | IsStyle st => Some st
  | IsCollection c => head (shuffle E (StyleCollection.styles c))
  end.

Definition apply_style : M unit :=
  s ← get;
  match args_style s with
  | None => mret tt
  | Some name =>
      super_apply_style name;;
      o ← the_existing_style;
      if negb (String.eqb (obj_style_type o) "text")
      then raise (BadRequest (Text "Image styles cannot be used on image requests")
                    (Some "StyleMismatch"))
      else
        st ← resolve_collection o;
        modify (set_models (get_model_names E st));;
        s ← get;
        p ← lift (Format.format_map_p (format_with_suffixes E) (Style.prompt st) (prompt s));
        modify (set_prompt p);;
        s ← get;
        let requested_n := Py.dict_get (params s) "n" (Py.Int 1) in
        modify (set_params (Style.params st));;
        modify (fun s => set_params (<["n" := requested_n]> (params s)) s);;
        modify (set_nsfw (Style.nsfw st));;
        modify (set_existing_style (Some (IsStyle (Style.use st))));;
        s ← get;
        (if negb (User.id (Style.user st) =? User.id (user s))
         then log (RecordStyle (Style.user st) 2 "text");;
              modify (set_style_kudos true)
         else mret tt);;
        log Commit
  end.

End Methods.

End TextAsyncGenerate.

(** ** [TextAsyncStatus] *)

Module TextAsyncStatus.

(** The status document [wp.get_status(...)] builds. *)
Abbreviation status := (gmap string Py.value).

(** The database as the status and cancel handlers see it: the table of
    text waiting prompts by id and the aggregate signals the status of a
    waiting prompt is computed from. *)
Record database := Database {
  text_wps : gmap string TextWaitingPrompt.t;
  get_request_avg : Q;
  wp_has_valid_workers : TextWaitingPrompt.t -> bool;
  get_wp_queue_stats : TextWaitingPrompt.t -> list Z;
  count_active_workers : Z * Z
}.

Definition set_text_wps (v : gmap string TextWaitingPrompt.t) (db : database) : database :=
  Database v (get_request_avg db) (wp_has_valid_workers db) (get_wp_queue_stats db)
    (count_active_workers db).

Section Handlers.
(** [TextWaitingPrompt.get_status], a projection of the row and of the
    signals it is given. *)
Variable get_status :
  TextWaitingPrompt.t -> Q -> bool -> list Z -> Z * Z -> status.

(** Lines 251-256 and 289-294. *)
Definition wp_status (db : database) (wp : TextWaitingPrompt.t) : status :=
  get_status wp (get_request_avg db) (wp_has_valid_workers db wp)
    (get_wp_queue_stats db wp) (count_active_workers db).

Definition get (id : string) (db : database) : result (status * Z) * database :=
  match text_wps db !! id with
  | None => (Raise (RequestNotFound id "Text Waiting Prompt (Status)"), db)
  | Some wp => (Return (wp_status db wp, 200), db)
  end.

Definition delete (id : string) (db : database) : result (status * Z) * database :=
  match text_wps db !! id with
  | None => (Raise (RequestNotFound id "Text Waiting Prompt (Delete)"), db)
  | Some wp =>
      let wp_status := wp_status db wp in
      (* wp.n = 0, on the row itself *)
      let db := set_text_wps (alter (TextWaitingPrompt.set_n 0) id (text_wps db)) db in
      (Return (wp_status, 200), db)
  end.
End Handlers.

(** The lifecycle states the specification gives a job. *)
Inductive lifecycle := queued | partially_claimed | completed | cancelled | expired.

End TextAsyncStatus.

(** ** [KoboldKudosTransfer] *)

Module KoboldKudosTransfer.

(** The parsed arguments of the request. *)
Record args := Args { kai_id : Z; kudos_amount : Z; trusted : bool }.

(** [request.remote_addr] and the path parameter. *)
Record request := Request { remote_addr : string; user_id : string }.

Section Handler.
(** [user.set_trusted] and [user.modify_kudos], the row after the call. *)
Variable set_trusted : User.t -> bool -> User.t.
Variable modify_kudos : User.t -> Z -> string -> User.t.

(** [users]: the table [database.find_user_by_id] reads. *)
Definition post (req : request) (a : args) (users : gmap string User.t)
  : result (Q * Z) * gmap string User.t :=
  if negb (String.eqb (remote_addr req) "167.86.124.45")
  then (Raise (BadRequest (Text "Access Denied") None), users)
  else
    match users !! user_id req with
    | None => (Raise (UserNotFound (user_id req)), users)
    | Some user =>
        let user :=
          if negb (User.trusted user) && trusted a
          then set_trusted user (trusted a) else user in
        let user := modify_kudos user (kudos_amount a) "koboldai" in
        (Return (User.kudos user, 200), <[user_id req := user]> users)
    end.
End Handler.

End KoboldKudosTransfer.

(** ** Concrete requests *)

Module Examples.
Import TextAsyncGenerate.

(** A cost table: model A costs twice the base, model B five times. *)
Definition multiplier (model : string) : Q :=
  if String.eqb model "A" then 2%Q
  else if String.eqb model "B" then 5%Q
  else 1%Q.

Definition int_param (d : gmap string Py.value) (key : string) (default : Z) : Z :=
  match Py.dict_get d key (Py.Int default) with
  | Py.Int z => z
  | _ => default
  end.

Definition build_wp (s : self) : TextWaitingPrompt.t :=
  TextWaitingPrompt.mk "wp-1" (User.id (user s)) (models s) (prompt s) (params s)
    (int_param (params s) "n" 1) (int_param (params s) "max_length" 80)
    false true (SharedKey.id <$> sharedkey s).

Definition shrink (wp : TextWaitingPrompt.t) (tokens : Z) : TextWaitingPrompt.t :=
  TextWaitingPrompt.mk (TextWaitingPrompt.id wp) (TextWaitingPrompt.user_id wp)
    (TextWaitingPrompt.models wp) (TextWaitingPrompt.prompt wp) (TextWaitingPrompt.params wp)
    (TextWaitingPrompt.n wp) (Z.min (TextWaitingPrompt.max_length wp) tokens)
    (TextWaitingPrompt.trusted_workers wp) true (TextWaitingPrompt.sharedkey_id wp).

Definition alice : User.t := User.mk 7 10 false.
Definition bob : User.t := User.mk 8 500 true.

Definition storyteller : Style.t :=
  Style.mk "style-1" "text" "Once upon a time {p} {mood}"
    (<["n" := Py.Int 4]> (<["max_length" := Py.Int 120]> ∅)) false 0 bob None.

Definition narrator : Style.t :=
  Style.mk "style-2" "text" "{0} says: {p}"
    (<["max_length" := Py.Int 60]> ∅) false 3 bob None.

Definition tales : StyleCollection.t :=
  StyleCollection.mk "collection-1" "text" [narrator; storyteller] 5.

Definition styles_by_name (name : string) : result style_obj :=
  if String.eqb name "storyteller" then Return (IsStyle storyteller)
  else if String.eqb name "narrator" then Return (IsStyle narrator)
  else if String.eqb name "tales" then Return (IsCollection tales)
  else Raise (BadRequest (Text "Style not found") None).

(** Upfront kudos are asked above 100 tokens; a key allows 50 tokens a job. *)
Definition horde : env := {|
  get_text_model_multiplier := multiplier;
  new_waiting_prompt := build_wp;
  count_active_workers := (3, 10);
  retrieve_totals := ∅;
  require_upfront_kudos := fun wp _ total_threads =>
    (10 * total_threads <? TextWaitingPrompt.max_length wp, 10 * total_threads, false);
  downgrade := shrink;
  is_job_within_limits := fun sk tokens =>
    (tokens <=? 50, Text "This shared key does not allow such a long text");
  resolve_style := styles_by_name;
  shuffle := @rev Style.t;
  get_model_names := fun st => ["B"];
  format_with_suffixes := fun _ _ => Raise (ValueError "not a plain template")
|}.

Definition request (params : gmap string Py.value) (models : list string)
    (sharedkey : option SharedKey.t) (allow_downgrade : bool) : self :=
  mk None allow_downgrade alice "alice#7" sharedkey "a dragon" params models false None
     false false None.

Definition styled (name : string) (params : gmap string Py.value) : self :=
  mk (Some name) false alice "alice#7" None "a dragon" params ["A"] false None
     false false None.

Definition start (s : self) : world := World s [].

Definition key_unlimited : SharedKey.t := SharedKey.mk "key-free" (-1).

(** Models A and B, one text of 210 tokens: 50 kudos. *)
Definition long_job : gmap string Py.value :=
  <["n" := Py.Int 1]> (<["max_length" := Py.Int 210]> ∅).

(** A waiting prompt that still owes three texts, alone in the queue. *)
Definition pending : TextWaitingPrompt.t :=
  TextWaitingPrompt.mk "wp-1" 7 ["A"] "a dragon" ∅ 3 80 false true None.

Definition queue : TextAsyncStatus.database :=
  TextAsyncStatus.Database (<["wp-1" := pending]> ∅) 1 (fun _ => true) (fun _ => [0; 0; 0]) (3, 10).

(** A status that shows the texts still owed and whether a worker can serve. *)
Definition show_status (wp : TextWaitingPrompt.t) (request_avg : Q) (has_valid_workers : bool)
    (wp_queue_stats : list Z) (active_worker_count : Z * Z) : gmap string Py.value :=
  <["waiting" := Py.Int (TextWaitingPrompt.n wp)]>
    (<["is_possible" := Py.Bool has_valid_workers]> ∅).

Definition accounts : gmap string User.t := <["7" := alice]> ∅.

Definition trust (u : User.t) (trusted : bool) : User.t :=
  User.mk (User.id u) (User.kudos u) trusted.

Definition credit (u : User.t) (amount : Z) (action : string) : User.t :=
  User.mk (User.id u) (User.kudos u + inject_Z amount)%Q (User.trusted u).

End Examples.

(** ** More concrete requests *)

Module Cases.
Import TextAsyncGenerate.




(** An image style, a collection without styles and a style of alice's own. *)
Definition portrait : Style.t :=
  Style.mk "style-3" "image" "{p}, oil on canvas" ∅ false 0 Examples.bob None.

Definition nothing : StyleCollection.t := StyleCollection.mk "collection-0" "text" [] 0.

Definition diary : Style.t :=
  Style.mk "style-4" "text" "Dear diary, {p}" (<["max_length" := Py.Int 200]> ∅) false 9
    Examples.alice None.

Definition gallery_styles (name : string) : result style_obj :=
  if String.eqb name "portrait" then Return (IsStyle portrait)
  else if String.eqb name "nothing" then Return (IsCollection nothing)
  else if String.eqb name "diary" then Return (IsStyle diary)
  else Examples.styles_by_name name.

(** The horde of the examples with these styles added. *)
Definition gallery : env := {|
  get_text_model_multiplier := get_text_model_multiplier Examples.horde;
  new_waiting_prompt := new_waiting_prompt Examples.horde;
  count_active_workers := count_active_workers Examples.horde;
  retrieve_totals := retrieve_totals Examples.horde;
  require_upfront_kudos := require_upfront_kudos Examples.horde;
  downgrade := downgrade Examples.horde;
  is_job_within_limits := is_job_within_limits Examples.horde;
  resolve_style := gallery_styles;
  shuffle := shuffle Examples.horde;
  get_model_names := get_model_names Examples.horde;
  format_with_suffixes := format_with_suffixes Examples.horde
|}.


End Cases.

(** ** Notions the further properties are stated with *)


(** A character that is not a brace. *)
Definition no_brace (c : ascii) : bool := negb (Ascii.eqb c "{" || Ascii.eqb c "}").

(** ** [TextAsyncGenerate.post] *)

Module GeneratePost.
Import TextAsyncGenerate.

(** Lines 164-168. *)
Definition get_size_too_big_message : string :=
  "Warning: No available workers can fulfill this request. It will expire in 20 minutes. "
  ++ "Consider reducing the amount of tokens to generate.".

Section Post.
(** [GenerateTemplate.post], which validates the request, builds the waiting
    prompt and leaves the kudos of the request in [self.kudos]: here it
    returns them. *)
Variable super_post : M Q.
(** [self.args.dry_run], [database.wp_has_valid_workers] and
    [settings.mode_raid()]. *)
Variable dry_run : bool.
Variable wp_has_valid_workers : TextWaitingPrompt.t -> bool.
Variable mode_raid : bool.

(** Lines 75-93.  An exception of the parent's [post] goes through: the
    handler of [KeyError] logs it and raises it again. *)
Definition post : M (gmap string Py.value * Z) :=
  kudos ← super_post;
  if dry_run then
    let ret_dict : gmap string Py.value := {["kudos" := Py.Int (Py.round_half_even kudos)]} in
    mret (ret_dict, 200)
  else
    wp ← the_wp;
    let ret_dict : gmap string Py.value :=
      <["kudos" := Py.Int (Py.round_half_even kudos)]>
        {["id" := Py.Str (TextWaitingPrompt.id wp)]} in
    let ret_dict :=
      if negb (wp_has_valid_workers wp) && negb mode_raid
      then <["message" := Py.Str get_size_too_big_message]> ret_dict
      else ret_dict in
    mret (ret_dict, 202).
End Post.

End GeneratePost.

(** * Properties *)

(** ** Numbers *)

Lemma gt_true (a b : Q) : Py.gt a b = true <-> (b < a)%Q.
Proof.
  unfold Py.gt. rewrite negb_true_iff. split.
  - intros H. apply Qnot_le_lt. intros Hle.
    apply Qle_bool_iff in Hle. congruence.
  - intros H. destruct (Qle_bool a b) eqn:Hb; [|reflexivity].
    apply Qle_bool_iff in Hb. exfalso. exact (Qlt_not_le _ _ H Hb).
Qed.

Lemma gt_false (a b : Q) : Py.gt a b = false <-> (a <= b)%Q.
Proof.
  unfold Py.gt. rewrite negb_false_iff. apply Qle_bool_iff.
Qed.

Lemma round_half_even_comp (x y : Q) : (x == y)%Q -> Py.round_half_even x = Py.round_half_even y.
Proof.
  intros H. unfold Py.round_half_even.
  rewrite (Qfloor_comp _ _ H).
  assert (Hc : ((x - inject_Z (Qfloor y) ?= 1 # 2) = (y - inject_Z (Qfloor y) ?= 1 # 2))%Q)
    by (rewrite H; reflexivity).
  rewrite Hc. reflexivity.
Qed.

Lemma round2_comp (x y : Q) : (x == y)%Q -> Py.round2 x = Py.round2 y.
Proof.
  intros H. unfold Py.round2.
  rewrite (round_half_even_comp (x * 100) (y * 100)); [reflexivity|].
  rewrite H. reflexivity.
Qed.

(** ** The highest multiplier *)

Section HighestMultiplier.
Variable mult : string -> Q.

Lemma highest_multiplier_from_ge (models : list string) (h : Q) :
  (h <= highest_multiplier_from mult h models)%Q.
Proof.
  revert h. induction models as [|m rest IH]; intros h; simpl.
  - apply Qle_refl.
  - destruct (Py.gt (mult m) h) eqn:Hgt.
    + apply gt_true in Hgt. eapply Qle_trans; [|apply IH]. apply Qlt_le_weak, Hgt.
    + apply IH.
Qed.

Lemma highest_multiplier_from_upper (models : list string) (h : Q) (m : string) :
  In m models -> (mult m <= highest_multiplier_from mult h models)%Q.
Proof.
  revert h. induction models as [|m' rest IH]; intros h Hin; simpl in *.
  - contradiction.
  - destruct Hin as [-> | Hin]; [|apply IH, Hin].
    destruct (Py.gt (mult m) h) eqn:Hgt.
    + apply highest_multiplier_from_ge.
    + apply gt_false in Hgt. eapply Qle_trans; [exact Hgt|].
      apply highest_multiplier_from_ge.
Qed.

Lemma highest_multiplier_from_attained (models : list string) (h : Q) :
  highest_multiplier_from mult h models = h \/
  exists m, In m models /\ highest_multiplier_from mult h models = mult m.
Proof.
  revert h. induction models as [|m rest IH]; intros h; simpl.
  - left; reflexivity.
  - destruct (IH (if Py.gt (mult m) h then mult m else h)) as [Heq | [m' [Hin Heq]]].
    + rewrite Heq. destruct (Py.gt (mult m) h); [right; exists m; auto | left; reflexivity].
    + right. exists m'. auto.
Qed.







End HighestMultiplier.

(** ** C1: the required kudos *)

Section RequiredKudosOfJob.
Import TextAsyncGenerate.
Variable E : env.


End RequiredKudosOfJob.


(** No model, five texts of 80 tokens: 100 kudos. *)
Example required_kudos_any_model :
  let s := Examples.request (<["n" := Py.Int 5]> (<["max_length" := Py.Int 80]> ∅)) [] None false in
  TextAsyncGenerate.kudos_required_of Examples.horde s
    (TextAsyncGenerate.new_waiting_prompt Examples.horde s) = 100%Q.
Proof. reflexivity. Qed.

(** Python rounds halves to the even neighbour. *)
Example round2_half_even : Py.round2 (1 # 8) = (12 # 100)%Q /\ Py.round2 (3 # 8) = (38 # 100)%Q.
Proof. split; reflexivity. Qed.

(** ** The admission of a job *)

Section Admission.
Import TextAsyncGenerate.
Variable E : env.

Ltac run :=
  cbv [sharedkey_kudos_check upfront_kudos_check sharedkey_limits_check
       wp_delete wp_downgrade the_wp get modify raise log lift
       mbind mret M_bind M_ret deleted built];
  cbn [this effects fst snd].

Ltac proj :=
  cbn [built deleted this effects set_wp set_downgrade_wp_priority
       args_style args_allow_downgrade user username sharedkey prompt params
       models nsfw existing_style style_kudos downgrade_wp_priority wp] in *.

(** The three checks, as equations on the state they start from. *)
Lemma sharedkey_kudos_check_eq (required_kudos : Q) (disable_downgrade : bool)
    (w : world) (job : TextWaitingPrompt.t) :
  wp (this w) = Some job ->
  sharedkey_kudos_check required_kudos disable_downgrade w =
    match sharedkey (this w) with
    | Some sk =>
        if negb (SharedKey.kudos sk =? -1)
           && Py.gt required_kudos (inject_Z (SharedKey.kudos sk))
        then
          if args_allow_downgrade (this w) && negb disable_downgrade
          then (Return tt, World (set_downgrade_wp_priority true (this w)) (effects w))
          else (Raise (KudosUpfront required_kudos (username (this w))
                         (SharedKeyNotEnoughKudos (SharedKey.kudos sk) required_kudos)
                         (Some "SharedKeyInsufficientKudos")),
                deleted job w)
        else (Return tt, w)
    | None => (Return tt, w)
    end.
Proof.
  intros Hwp. run.
  destruct (sharedkey (this w)) as [sk|]; [|reflexivity].
  destruct (negb (SharedKey.kudos sk =? -1)
            && Py.gt required_kudos (inject_Z (SharedKey.kudos sk))); [|reflexivity].
  destruct (args_allow_downgrade (this w) && negb disable_downgrade); [reflexivity|].
  cbn. rewrite Hwp. reflexivity.
Qed.

Lemma upfront_kudos_check_eq (required_kudos : Q) (needs_kudos : bool) (tokens : Z)
    (disable_downgrade : bool) (w : world) (job : TextWaitingPrompt.t) :
  wp (this w) = Some job ->
  upfront_kudos_check E required_kudos needs_kudos tokens disable_downgrade w =
    if needs_kudos && Py.gt required_kudos (User.kudos (user (this w)))
    then
      if args_allow_downgrade (this w) && negb disable_downgrade
      then (Return tt, World (set_wp (Some (downgrade E job tokens)) (this w)) (effects w))
      else (Raise (KudosUpfront required_kudos (username (this w))
                     (HeavyDemandUpfront tokens required_kudos) None),
            deleted job w)
    else (Return tt, w).
Proof.
  intros Hwp. run.
  destruct needs_kudos; [|reflexivity]. cbn.
  destruct (Py.gt required_kudos (User.kudos (user (this w)))); [|reflexivity].
  destruct (args_allow_downgrade (this w) && negb disable_downgrade);
    cbn; rewrite Hwp; reflexivity.
Qed.

Lemma sharedkey_limits_check_eq (w : world) (job : TextWaitingPrompt.t) :
  wp (this w) = Some job ->
  sharedkey_limits_check E w =
    match sharedkey (this w) with
    | Some sk =>
        if negb (fst (is_job_within_limits E sk (TextWaitingPrompt.max_length job)))
           && negb (style_has_sharedkey (this w) sk)
        then (Raise (BadRequest
                       (snd (is_job_within_limits E sk (TextWaitingPrompt.max_length job)))
                       None),
              deleted job w)
        else (Return tt, w)
    | None => (Return tt, w)
    end.
Proof.
  intros Hwp. run.
  destruct (sharedkey (this w)) as [sk|]; [|reflexivity].
  rewrite Hwp. cbn.
  destruct (is_job_within_limits E sk (TextWaitingPrompt.max_length job)) as [ok msg].
  destruct ok; cbn; [reflexivity|].
  destruct (style_has_sharedkey (this w) sk); cbn; [reflexivity|].
  rewrite Hwp. reflexivity.
Qed.

Lemma kudos_checks_eq (w : world) (needs_kudos : bool) (tokens : Z) (disable_downgrade : bool) :
  let job := new_waiting_prompt E (this w) in
  let required_kudos := kudos_required_of E (this w) job in
  upfront_policy E job = (needs_kudos, tokens, disable_downgrade) ->
  kudos_checks E w =
    match sharedkey_kudos_check required_kudos disable_downgrade (built E w) with
    | (Return _, w1) =>
        upfront_kudos_check E required_kudos needs_kudos tokens disable_downgrade w1
    | (Raise e, w1) => (Raise e, w1)
    end.
Proof.
  intros job required_kudos Hpol.
  unfold kudos_checks.
  cbv [the_wp get modify mbind mret M_bind M_ret]. cbn [this effects wp set_wp].
  fold job. rewrite Hpol. reflexivity.
Qed.

Lemma initiate_waiting_prompt_eq (w : world) :
  initiate_waiting_prompt E w =
    match kudos_checks E w with
    | (Return _, w1) => sharedkey_limits_check E w1
    | (Raise e, w1) => (Raise e, w1)
    end.
Proof. reflexivity. Qed.

(** What the kudos checks leave alone, and what they leave behind. *)
Lemma kudos_checks_frame (w w1 : world) (r : result unit) :
  kudos_checks E w = (r, w1) ->
  sharedkey (this w1) = sharedkey (this w) /\
  existing_style (this w1) = existing_style (this w) /\
  exists job1, wp (this w1) = Some job1 /\
    match r with
    | Return _ => effects w1 = effects w
    | Raise _ =>
        job1 = new_waiting_prompt E (this w) /\
        effects w1 = (effects w ++ [WpDelete (TextWaitingPrompt.id job1)])%list
    end.
Proof.
  destruct (upfront_policy E (new_waiting_prompt E (this w))) as [[needs tokens] disable] eqn:Hpol.
  rewrite (kudos_checks_eq w needs tokens disable Hpol).
  rewrite (sharedkey_kudos_check_eq _ _ (built E w) (new_waiting_prompt E (this w)) eq_refl).
  proj.
  set (job := new_waiting_prompt E (this w)).
  set (required := kudos_required_of E (this w) job).
  assert (Hup : forall w0, wp (this w0) = Some job ->
            sharedkey (this w0) = sharedkey (this w) ->
            existing_style (this w0) = existing_style (this w) ->
            effects w0 = effects w ->
            upfront_kudos_check E required needs tokens disable w0 = (r, w1) ->
            sharedkey (this w1) = sharedkey (this w) /\
            existing_style (this w1) = existing_style (this w) /\
            exists job1, wp (this w1) = Some job1 /\
              match r with
              | Return _ => effects w1 = effects w
              | Raise _ => job1 = job /\
                  effects w1 = (effects w ++ [WpDelete (TextWaitingPrompt.id job1)])%list
              end).
  { intros w0 Hwp Hsk Hst Heff. rewrite (upfront_kudos_check_eq _ _ _ _ w0 job Hwp).
    destruct (needs && Py.gt required (User.kudos (user (this w0)))).
    - destruct (args_allow_downgrade (this w0) && negb disable);
        intros [= <- <-]; cbn; rewrite ?Heff; eauto 10.
    - intros [= <- <-]. eauto 10. }
  destruct (sharedkey (this w)) as [sk|] eqn:Hsk.
  - destruct (negb (SharedKey.kudos sk =? -1)
              && Py.gt required (inject_Z (SharedKey.kudos sk))).
    + destruct (args_allow_downgrade (this w) && negb disable).
      * apply Hup; reflexivity || exact Hsk.
      * intros [= <- <-]; cbn. rewrite Hsk. eauto 10.
    + apply Hup; reflexivity || exact Hsk.
  - apply Hup; reflexivity || exact Hsk.
Qed.


(** C9.  With the shared key whose kudos are the sentinel [-1], the budget
    check of the key does nothing, whatever the required kudos; the request
    is never refused with the reason [SharedKeyInsufficientKudos] and its
    priority is never downgraded on behalf of the key. *)
Theorem unlimited_sharedkey_is_not_checked (w : world) (sk : SharedKey.t) :
  sharedkey (this w) = Some sk ->
  SharedKey.kudos sk = -1 ->
  (forall required_kudos disable_downgrade,
     sharedkey_kudos_check required_kudos disable_downgrade (built E w)
     = (Return tt, built E w)) /\
  downgrade_wp_priority (this (snd (initiate_waiting_prompt E w)))
  = downgrade_wp_priority (this w) /\
  (forall required_kudos name msg,
     fst (initiate_waiting_prompt E w)
     <> Raise (KudosUpfront required_kudos name msg (Some "SharedKeyInsufficientKudos"))).
Proof.
  intros Hsk Hunl.
  assert (Hskip : forall required_kudos disable_downgrade,
            sharedkey_kudos_check required_kudos disable_downgrade (built E w)
            = (Return tt, built E w)).
  { intros rq dd.
    rewrite (sharedkey_kudos_check_eq _ _ (built E w) _ eq_refl).
    proj. rewrite Hsk, Hunl. reflexivity. }
  split; [exact Hskip|].
  destruct (upfront_policy E (new_waiting_prompt E (this w))) as [[needs tokens] disable] eqn:Hpol.
  rewrite initiate_waiting_prompt_eq, (kudos_checks_eq w _ _ _ Hpol), Hskip.
  rewrite (upfront_kudos_check_eq _ _ _ _ (built E w) _ eq_refl).
  proj.
  set (job := new_waiting_prompt E (this w)).
  set (required := kudos_required_of E (this w) job).
  destruct (needs && Py.gt required (User.kudos (user (this w)))).
  - destruct (args_allow_downgrade (this w) && negb disable).
    + rewrite sharedkey_limits_check_eq with (job := downgrade E job tokens) by reflexivity.
      proj. rewrite Hsk.
      match goal with |- context [if ?b then _ else _] => destruct b end;
        cbn; (split; [reflexivity | discriminate]).
    + cbn; split; [reflexivity | discriminate].
  - rewrite sharedkey_limits_check_eq with (job := job) by reflexivity.
    proj. rewrite Hsk.
    match goal with |- context [if ?b then _ else _] => destruct b end;
      cbn; (split; [reflexivity | discriminate]).
Qed.



(** C5.  A request paid through a shared key, whatever its kudos.  The job
    the checks leave (the waiting prompt, downgraded or not) exceeds the
    limits of the key: unless the style in use carries this very key, the
    request is refused and the waiting prompt deleted.  When the style
    carries the key, the limits decide nothing: the outcome is that of the
    kudos checks. *)
Theorem sharedkey_token_ceiling (w : world) (sk : SharedKey.t) :
  sharedkey (this w) = Some sk ->
  exists job',
    wp (this (snd (initiate_waiting_prompt E w))) = Some job' /\
    (style_has_sharedkey (this w) sk = false ->
     fst (is_job_within_limits E sk (TextWaitingPrompt.max_length job')) = false ->
     (exists e, fst (initiate_waiting_prompt E w) = Raise e) /\
     In (WpDelete (TextWaitingPrompt.id job')) (effects (snd (initiate_waiting_prompt E w)))) /\
    (style_has_sharedkey (this w) sk = true ->
     initiate_waiting_prompt E w = kudos_checks E w).
Proof.
  intros Hsk. rewrite initiate_waiting_prompt_eq.
  destruct (kudos_checks E w) as [r w1] eqn:Hk.
  destruct (kudos_checks_frame w w1 r Hk) as (Hsk1 & Hst1 & job1 & Hwp1 & Heff).
  assert (Hby : style_has_sharedkey (this w1) sk = style_has_sharedkey (this w) sk)
    by (unfold style_has_sharedkey; rewrite Hst1; reflexivity).
  destruct r as [[]|e].
  - rewrite (sharedkey_limits_check_eq w1 job1 Hwp1), Hsk1, Hsk, Hby.
    destruct (fst (is_job_within_limits E sk (TextWaitingPrompt.max_length job1))) eqn:Hlim;
      cbn [negb andb].
    + exists job1. cbn [fst snd]. split; [exact Hwp1|]. split; [congruence | reflexivity].
    + destruct (style_has_sharedkey (this w) sk) eqn:Hb; cbn [negb].
      * exists job1. cbn [fst snd]. split; [exact Hwp1|]. split; [discriminate | reflexivity].
      * exists job1. cbn [fst snd deleted this effects].
        split; [exact Hwp1|]. split; [|discriminate].
        intros _ _. split; [eauto|]. apply in_or_app. right. left. reflexivity.
  - exists job1. cbn [fst snd]. split; [exact Hwp1|]. split; [|reflexivity].
    intros _ _. split; [eauto|]. destruct Heff as [_ ->].
    apply in_or_app. right. left. reflexivity.
Qed.

End Admission.

Import TextAsyncGenerate.


Lemma unlimited_sharedkey_is_not_checked_witness :
  let w := Examples.start
             (Examples.request Examples.long_job ["A"; "B"] (Some Examples.key_unlimited) false) in
  downgrade_wp_priority (this (snd (initiate_waiting_prompt Examples.horde w))) = false /\
  forall required_kudos name msg,
    fst (initiate_waiting_prompt Examples.horde w)
    <> Raise (KudosUpfront required_kudos name msg (Some "SharedKeyInsufficientKudos")).
Proof.
  intros w.
  destruct (unlimited_sharedkey_is_not_checked Examples.horde w Examples.key_unlimited
              eq_refl eq_refl) as (_ & Hflag & Hnever).
  split; [rewrite Hflag; reflexivity | exact Hnever].
Defined.



Lemma sharedkey_token_ceiling_witness :
  let w := Examples.start
             (Examples.request Examples.long_job ["A"; "B"] (Some Examples.key_unlimited) true) in
  exists e, fst (initiate_waiting_prompt Examples.horde w) = Raise e.
Proof.
  intros w.
  destruct (sharedkey_token_ceiling Examples.horde w Examples.key_unlimited eq_refl)
    as (job' & Hwp & Hreject & _).
  assert (Hjob : job' = Examples.shrink (new_waiting_prompt Examples.horde (this w)) 100).
  { assert (H : wp (this (snd (initiate_waiting_prompt Examples.horde w)))
                = Some (Examples.shrink (new_waiting_prompt Examples.horde (this w)) 100))
      by reflexivity.
    rewrite H in Hwp. injection Hwp as <-. reflexivity. }
  subst job'. destruct (Hreject eq_refl eq_refl) as [He _]. exact He.
Defined.

(** ** Style application *)

Section FormatMap.
Import Format.








End FormatMap.


(** The scanner agrees with CPython 3.11 on these templates. *)
Example scan_doubled_braces :
  Format.scan (Format.lookup_p "a dragon") Format.InText "{{p}} {p} {other}"
  = Some (Return "{p} a dragon ").
Proof. reflexivity. Qed.

Example scan_single_brace :
  Format.scan (Format.lookup_p "a dragon") Format.InText "{p}}"
  = Some (Raise (ValueError "Single '}' encountered in format string")).
Proof. reflexivity. Qed.

Example scan_auto_numbered :
  Format.scan (Format.lookup_p "a dragon") Format.InText "{} {p}"
  = Some (Raise (ValueError "Format string contains positional fields")).
Proof. reflexivity. Qed.

Example scan_digits_then_letter :
  Format.scan (Format.lookup_p "a dragon") Format.InText "{1a}{p}" = Some (Return "a dragon").
Proof. reflexivity. Qed.

Example scan_too_many_digits :
  Format.scan (Format.lookup_p "a dragon") Format.InText "{9223372036854775808x}"
  = Some (Raise (ValueError "Too many decimal digits in format string")).
Proof. reflexivity. Qed.

Example scan_conversion_left_out :
  Format.scan (Format.lookup_p "a dragon") Format.InText "{p!r}" = None.
Proof. reflexivity. Qed.


Section ApplyStyle.
Import TextAsyncGenerate.
Variable E : env.

Lemma resolve_collection_chosen (o : style_obj) (st : Style.t) (w : world) :
  chosen_style E o = Some st ->
  exists w1, resolve_collection E o w = (Return st, w1) /\
             prompt (this w1) = prompt (this w) /\
             params (this w1) = params (this w).
Proof.
  destruct o as [st0 | c]; cbn [chosen_style resolve_collection].
  - intros [= ->]. exists w. auto.
  - destruct (shuffle E (StyleCollection.styles c)) as [|st0 rest]; [discriminate|].
    intros [= ->]. eexists. split; [reflexivity|]. split; reflexivity.
Qed.

(** C7.  A request that names a style, once the style is resolved (a
    collection gives the first style of its shuffle) and its template
    filled: the models of the request are the models of the style, and its
    parameters are the parameters of the style except for [n], which is the
    [n] the user sent, or 1 when the user sent none. *)
Theorem apply_style_keeps_requested_n (w : world) (name : string) (o : style_obj)
    (st : Style.t) (p : string) :
  args_style (this w) = Some name ->
  resolve_style E name = Return o ->
  obj_style_type o = "text" ->
  chosen_style E o = Some st ->
  Format.format_map_p (format_with_suffixes E) (Style.prompt st) (prompt (this w)) = Return p ->
  let requested_n := Py.dict_get (params (this w)) "n" (Py.Int 1) in
  exists w',
    apply_style E w = (Return tt, w') /\
    models (this w') = get_model_names E st /\
    params (this w') = <["n" := requested_n]> (Style.params st) /\
    params (this w') !! "n" = Some requested_n /\
    (forall key, key <> "n" -> params (this w') !! key = Style.params st !! key).
Proof.
  intros Hstyle Hres Htype Hchosen Hfmt requested_n.
  unfold apply_style.
  cbv [mbind M_bind get]. rewrite Hstyle.
  cbv [super_apply_style the_existing_style lift modify mbind mret M_bind M_ret get].
  rewrite Hres. cbn [this effects set_existing_style existing_style].
  rewrite Htype. change (negb ("text" =? "text")%string) with false. cbv iota beta.
  match goal with |- context [resolve_collection E o ?w0] =>
    destruct (resolve_collection_chosen o st w0 Hchosen) as (w1 & -> & Hp1 & Hq1)
  end.
  cbn [this effects set_existing_style set_models prompt params] in Hp1, Hq1 |- *.
  rewrite Hp1, Hfmt.
  cbv [log raise].
  cbn [this effects set_prompt set_params set_nsfw set_existing_style set_style_kudos
       set_models params user].
  rewrite Hq1. fold requested_n.
  destruct (negb (User.id (Style.user st) =? User.id (user (this w1))));
    (eexists; split; [reflexivity|]);
    cbn [this set_style_kudos set_existing_style set_nsfw set_params models params];
    (split; [reflexivity|]); (split; [reflexivity|]);
    (split; [apply lookup_insert_eq | intros key Hkey; apply lookup_insert_ne; congruence]).
Qed.

(** The application of a style returns only in the case the theorem above
    describes. *)
Lemma apply_style_returns (w w' : world) (name : string) :
  args_style (this w) = Some name ->
  apply_style E w = (Return tt, w') ->
  exists o st p,
    resolve_style E name = Return o /\
    obj_style_type o = "text" /\
    chosen_style E o = Some st /\
    Format.format_map_p (format_with_suffixes E) (Style.prompt st) (prompt (this w)) = Return p.
Proof.
  intros Hstyle. unfold apply_style.
  cbv [mbind M_bind get]. rewrite Hstyle.
  cbv [super_apply_style the_existing_style lift modify mbind mret M_bind M_ret get].
  destruct (resolve_style E name) as [o|e] eqn:Hres; [|discriminate].
  cbn [this effects set_existing_style existing_style].
  destruct (String.eqb (obj_style_type o) "text") eqn:Htype; cbn [negb];
    [|discriminate].
  apply String.eqb_eq in Htype.
  destruct (chosen_style E o) as [st|] eqn:Hchosen.
  - match goal with |- context [resolve_collection E o ?w0] =>
      destruct (resolve_collection_chosen o st w0 Hchosen) as (w1 & -> & Hp1 & _)
    end.
    cbn [this effects set_existing_style set_models prompt] in Hp1 |- *.
    rewrite Hp1.
    destruct (Format.format_map_p (format_with_suffixes E) (Style.prompt st) (prompt (this w)))
      as [p|e] eqn:Hfmt; [|discriminate].
    intros _. exists o, st, p. auto.
  - destruct o as [st | c]; [discriminate|].
    cbn [chosen_style] in Hchosen. cbn [resolve_collection].
    destruct (shuffle E (StyleCollection.styles c)); [|discriminate].
    discriminate.
Qed.

End ApplyStyle.

Lemma apply_style_keeps_requested_n_witness :
  let w := Examples.start (Examples.styled "storyteller" (<["n" := Py.Int 2]> ∅)) in
  exists w',
    TextAsyncGenerate.apply_style Examples.horde w = (Return tt, w') /\
    TextAsyncGenerate.params (TextAsyncGenerate.this w') !! "n" = Some (Py.Int 2) /\
    TextAsyncGenerate.params (TextAsyncGenerate.this w') !! "max_length" = Some (Py.Int 120) /\
    Style.params Examples.storyteller !! "n" = Some (Py.Int 4).
Proof.
  intros w.
  destruct (apply_style_keeps_requested_n Examples.horde w "storyteller"
              (IsStyle Examples.storyteller) Examples.storyteller
              "Once upon a time a dragon " eq_refl eq_refl eq_refl eq_refl eq_refl)
    as (w' & Hrun & _ & _ & Hn & Hother).
  exists w'. split; [exact Hrun|]. split; [exact Hn|]. split.
  - rewrite Hother; [reflexivity | discriminate].
  - reflexivity.
Defined.

(** ** Cancellation *)

Section Cancel.
Import TextAsyncStatus.
Variable get_status : TextWaitingPrompt.t -> Q -> bool -> list Z -> Z * Z -> status.

Lemma set_text_wps_same (db : database) : set_text_wps (text_wps db) db = db.
Proof. destruct db; reflexivity. Qed.

Lemma set_n_same (job : TextWaitingPrompt.t) :
  TextWaitingPrompt.n job = 0 -> TextWaitingPrompt.set_n 0 job = job.
Proof. destruct job; cbn. intros ->. reflexivity. Qed.

Lemma delete_found (id : string) (db : database) (job : TextWaitingPrompt.t) :
  text_wps db !! id = Some job ->
  delete get_status id db =
    (Return (wp_status get_status db job, 200),
     set_text_wps (<[id := TextWaitingPrompt.set_n 0 job]> (text_wps db)) db).
Proof.
  intros Hjob. unfold delete. rewrite Hjob. do 2 f_equal.
  apply map_eq. intros id'. rewrite lookup_alter.
  destruct (decide (id = id')) as [<- | Hne].
  - rewrite Hjob, lookup_insert_eq. reflexivity.
  - rewrite lookup_insert_ne by exact Hne. reflexivity.
Qed.

(** C10.  The status the cancel handler returns is computed before the
    waiting prompt is changed: it is the status of the waiting prompt as it
    was found, the one the status handler would have returned, while the row
    the handler leaves has [n = 0]. *)
Theorem delete_returns_status_before (id : string) (db : database) (job : TextWaitingPrompt.t) :
  text_wps db !! id = Some job ->
  fst (delete get_status id db) = Return (wp_status get_status db job, 200) /\
  fst (delete get_status id db) = fst (get get_status id db) /\
  text_wps (snd (delete get_status id db)) !! id = Some (TextWaitingPrompt.set_n 0 job).
Proof.
  intros Hjob. rewrite (delete_found id db job Hjob). unfold get. rewrite Hjob.
  cbn [fst snd set_text_wps text_wps]. rewrite lookup_insert_eq. auto.
Qed.

(** C4, as the code has it.  Cancelling a waiting prompt that exists raises
    nothing, sets its [n] to 0 and changes nothing else, neither in the row
    nor in the other rows.  Cancelling a waiting prompt whose [n] is already
    0 changes nothing at all and returns its status as it stands, and a
    second cancellation leaves the database as the first one did. *)
Theorem delete_sets_n_to_zero (id : string) (db : database) (job : TextWaitingPrompt.t) :
  text_wps db !! id = Some job ->
  let db' := snd (delete get_status id db) in
  (exists st, fst (delete get_status id db) = Return (st, 200)) /\
  text_wps db' !! id = Some (TextWaitingPrompt.set_n 0 job) /\
  (forall id', id' <> id -> text_wps db' !! id' = text_wps db !! id') /\
  (TextWaitingPrompt.n job = 0 ->
   delete get_status id db = (Return (wp_status get_status db job, 200), db)) /\
  delete get_status id db'
  = (Return (wp_status get_status db' (TextWaitingPrompt.set_n 0 job), 200), db').
Proof.
  intros Hjob db'.
  assert (Hzero : forall d j, text_wps d !! id = Some j -> TextWaitingPrompt.n j = 0 ->
            delete get_status id d = (Return (wp_status get_status d j, 200), d)).
  { intros d j Hj Hn. rewrite (delete_found id d j Hj), (set_n_same j Hn).
    rewrite (insert_id _ _ _ Hj), set_text_wps_same. reflexivity. }
  assert (Hrow : text_wps db' !! id = Some (TextWaitingPrompt.set_n 0 job)).
  { unfold db'. rewrite (delete_found id db job Hjob).
    cbn [snd set_text_wps text_wps]. apply lookup_insert_eq. }
  split; [|split; [exact Hrow | split; [|split]]].
  - rewrite (delete_found id db job Hjob). eauto.
  - intros id' Hne. unfold db'. rewrite (delete_found id db job Hjob).
    cbn [snd set_text_wps text_wps]. apply lookup_insert_ne. congruence.
  - intros Hn. apply Hzero; assumption.
  - apply Hzero; [exact Hrow | reflexivity].
Qed.

End Cancel.

Lemma delete_returns_status_before_witness :
  exists st,
    fst (TextAsyncStatus.delete Examples.show_status "wp-1" Examples.queue) = Return (st, 200) /\
    st !! "waiting" = Some (Py.Int 3) /\
    TextWaitingPrompt.n <$>
      TextAsyncStatus.text_wps
        (snd (TextAsyncStatus.delete Examples.show_status "wp-1" Examples.queue)) !! "wp-1"
    = Some 0.
Proof.
  destruct (delete_returns_status_before Examples.show_status "wp-1" Examples.queue
              Examples.pending eq_refl) as (Hst & _ & Hrow).
  eexists. split; [exact Hst|]. split; [reflexivity|]. rewrite Hrow. reflexivity.
Defined.

Lemma delete_sets_n_to_zero_witness :
  let db' := snd (TextAsyncStatus.delete Examples.show_status "wp-1" Examples.queue) in
  TextAsyncStatus.text_wps db' !! "wp-1" = Some (TextWaitingPrompt.set_n 0 Examples.pending) /\
  snd (TextAsyncStatus.delete Examples.show_status "wp-1" db') = db'.
Proof.
  intros db'.
  destruct (delete_sets_n_to_zero Examples.show_status "wp-1" Examples.queue
              Examples.pending eq_refl) as (_ & Hrow & _ & _ & Hagain).
  split; [exact Hrow|]. fold db' in Hagain. rewrite Hagain. reflexivity.
Defined.

(** C4, as the claim words it, fails: the cancel handler records no
    lifecycle state.  The row it leaves for a waiting prompt that owed three
    texts is that row with [n = 0], the row of the same waiting prompt once
    nothing is owed any more; whatever reads a lifecycle state off the stored
    row cannot read [cancelled] for the one and [completed] for the other. *)
Lemma cancel_records_no_cancelled_state :
  TextAsyncStatus.text_wps Examples.queue !! "wp-1" = Some Examples.pending /\
  TextWaitingPrompt.n Examples.pending = 3 /\
  TextAsyncStatus.text_wps
    (snd (TextAsyncStatus.delete Examples.show_status "wp-1" Examples.queue)) !! "wp-1"
  = Some (TextWaitingPrompt.mk "wp-1" 7 ["A"] "a dragon" ∅ 0 80 false true None) /\
  ~ (exists state_of : TextWaitingPrompt.t -> TextAsyncStatus.lifecycle,
       (state_of <$>
          TextAsyncStatus.text_wps
            (snd (TextAsyncStatus.delete Examples.show_status "wp-1" Examples.queue)) !! "wp-1")
       = Some TextAsyncStatus.cancelled /\
       state_of (TextWaitingPrompt.set_n 0 Examples.pending) = TextAsyncStatus.completed).
Proof.
  assert (Hrow : TextAsyncStatus.text_wps
            (snd (TextAsyncStatus.delete Examples.show_status "wp-1" Examples.queue)) !! "wp-1"
          = Some (TextWaitingPrompt.set_n 0 Examples.pending)).
  { rewrite (delete_found Examples.show_status "wp-1" Examples.queue Examples.pending eq_refl).
    cbn [snd TextAsyncStatus.set_text_wps TextAsyncStatus.text_wps].
    apply lookup_insert_eq. }
  split; [reflexivity|]. split; [reflexivity|]. split; [rewrite Hrow; reflexivity|].
  intros (state_of & Hc & Hd). rewrite Hrow in Hc. cbn in Hc. congruence.
Qed.

(** ** The kudos transfer *)

Section Transfer.
Import KoboldKudosTransfer.
Variable set_trusted : User.t -> bool -> User.t.
Variable modify_kudos : User.t -> Z -> string -> User.t.

(** C8.  A transfer asked from any address but the one of the KoboldAI
    Horde is refused with the error "Access Denied", before the user is even
    looked up: no row of the users changes, so the kudos and the trust flag
    of the target user are what they were. *)
Theorem post_access_denied (req : request) (a : args) (users : gmap string User.t) :
  remote_addr req <> "167.86.124.45" ->
  post set_trusted modify_kudos req a users
  = (Raise (BadRequest (Text "Access Denied") None), users).
Proof.
  intros Haddr. unfold post.
  destruct (String.eqb (remote_addr req) "167.86.124.45") eqn:Heq.
  - apply String.eqb_eq in Heq. contradiction.
  - reflexivity.
Qed.

(** From that address the transfer goes through. *)
Lemma post_trusted_caller (req : request) (a : args) (users : gmap string User.t) (u : User.t) :
  remote_addr req = "167.86.124.45" ->
  users !! user_id req = Some u ->
  let u1 := if negb (User.trusted u) && trusted a then set_trusted u (trusted a) else u in
  let u2 := modify_kudos u1 (kudos_amount a) "koboldai" in
  post set_trusted modify_kudos req a users
  = (Return (User.kudos u2, 200), <[user_id req := u2]> users).
Proof.
  intros Haddr Hu. unfold post. rewrite Haddr, Hu. reflexivity.
Qed.

End Transfer.

Lemma post_access_denied_witness :
  let outcome :=
    KoboldKudosTransfer.post Examples.trust Examples.credit
      (KoboldKudosTransfer.Request "203.0.113.9" "7")
      (KoboldKudosTransfer.Args 42 1000 true) Examples.accounts in
  fst outcome = Raise (BadRequest (Text "Access Denied") None) /\
  snd outcome !! "7" = Some Examples.alice.
Proof.
  intros outcome. unfold outcome.
  rewrite (post_access_denied Examples.trust Examples.credit
             (KoboldKudosTransfer.Request "203.0.113.9" "7")
             (KoboldKudosTransfer.Args 42 1000 true) Examples.accounts);
    [split; reflexivity | discriminate].
Defined.

Example post_from_koboldai :
  let outcome :=
    KoboldKudosTransfer.post Examples.trust Examples.credit
      (KoboldKudosTransfer.Request "167.86.124.45" "7")
      (KoboldKudosTransfer.Args 42 1000 true) Examples.accounts in
  snd outcome !! "7" = Some (User.mk 7 (10 + 1000)%Q true).
Proof. reflexivity. Qed.

(** * Further properties *)

From Stdlib Require Import Lqa Permutation.

(** ** The price of a job *)

Lemma round_half_even_bounds (x : Q) :
  Qfloor x <= Py.round_half_even x <= Qfloor x + 1.
Proof.
  unfold Py.round_half_even.
  destruct (x - inject_Z (Qfloor x) ?= 1 # 2)%Q; [destruct (Z.even (Qfloor x))| |]; lia.
Qed.

Lemma round_half_even_mono (x y : Q) :
  (x <= y)%Q -> Py.round_half_even x <= Py.round_half_even y.
Proof.
  intros Hxy.
  pose proof (Qfloor_resp_le x y Hxy) as Hfloor.
  destruct (Z.eq_dec (Qfloor x) (Qfloor y)) as [Heq | Hne].
  - unfold Py.round_half_even. rewrite <- Heq.
    destruct (Qcompare_spec (x - inject_Z (Qfloor x)) (1 # 2)) as [Hx | Hx | Hx];
      destruct (Qcompare_spec (y - inject_Z (Qfloor x)) (1 # 2)) as [Hy | Hy | Hy];
      try destruct (Z.even (Qfloor x)); try lia; exfalso; lra.
  - pose proof (round_half_even_bounds x). pose proof (round_half_even_bounds y). lia.
Qed.

Lemma round2_mono (x y : Q) : (x <= y)%Q -> (Py.round2 x <= Py.round2 y)%Q.
Proof.
  intros Hxy. unfold Py.round2, Qle. cbn [Qnum Qden].
  assert (H : Py.round_half_even (x * 100) <= Py.round_half_even (y * 100))
    by (apply round_half_even_mono; lra).
  lia.
Qed.

Lemma round2_nonneg (x : Q) : (0 <= x)%Q -> (0 <= Py.round2 x)%Q.
Proof.
  intros Hx. apply (round2_mono 0 x) in Hx.
  eapply Qle_trans; [|exact Hx]. vm_compute. discriminate.
Qed.

Section Price.
Variable mult : string -> Q.

(** The highest multiplier is the least bound of the start and of the
    multipliers of the models. *)
Lemma highest_multiplier_from_least (models : list string) (h u : Q) :
  (h <= u)%Q ->
  (forall m, In m models -> (mult m <= u)%Q) ->
  (highest_multiplier_from mult h models <= u)%Q.
Proof.
  intros Hh Hu.
  destruct (highest_multiplier_from_attained mult models h) as [-> | [m [Hin ->]]]; auto.
Qed.

Lemma highest_multiplier_incl (models models' : list string) :
  incl models models' ->
  (highest_multiplier_from mult 0 models <= highest_multiplier_from mult 0 models')%Q.
Proof.
  intros Hincl. apply highest_multiplier_from_least.
  - apply highest_multiplier_from_ge.
  - intros m Hin. apply highest_multiplier_from_upper, Hincl, Hin.
Qed.

Lemma length_eqb_nonempty (models : list string) :
  models <> [] -> (Z.of_nat (length models) =? 0) = false.
Proof. destruct models; [congruence | reflexivity]. Qed.

Lemma required_kudos_of_highest (models : list string) (wp : TextWaitingPrompt.t) :
  models <> [] ->
  required_kudos mult models wp =
    (Py.round2 (inject_Z (TextWaitingPrompt.max_length wp)
                * highest_multiplier_from mult 0 models / 21)
     * inject_Z (TextWaitingPrompt.n wp))%Q.
Proof.
  intros Hne. unfold required_kudos. rewrite (length_eqb_nonempty models Hne). reflexivity.
Qed.

Lemma price_mono_in_multiplier (ml n : Z) (h h' : Q) :
  0 <= ml -> 0 <= n -> (h <= h')%Q ->
  (Py.round2 (inject_Z ml * h / 21) * inject_Z n
   <= Py.round2 (inject_Z ml * h' / 21) * inject_Z n)%Q.
Proof.
  intros Hml Hn Hh.
  apply Qmult_le_compat_r; [|change 0%Q with (inject_Z 0); rewrite <- Zle_Qle; exact Hn].
  apply round2_mono.
  assert (Hml' : (0 <= inject_Z ml)%Q)
    by (change 0%Q with (inject_Z 0); rewrite <- Zle_Qle; exact Hml).
  assert (Hprod : (inject_Z ml * h <= inject_Z ml * h')%Q).
  { rewrite !(Qmult_comm (inject_Z ml)). apply Qmult_le_compat_r; assumption. }
  unfold Qdiv. apply Qmult_le_compat_r; [exact Hprod | discriminate].
Qed.

(** X1.  The order in which the request lists its models does not change
    the price. *)
Theorem required_kudos_permutation (models models' : list string) (wp : TextWaitingPrompt.t) :
  Permutation models models' ->
  required_kudos mult models wp = required_kudos mult models' wp.
Proof.
  intros Hperm.
  destruct models as [|m rest].
  - apply Permutation_nil in Hperm. subst. reflexivity.
  - assert (Hne' : models' <> []).
    { intros ->. apply Permutation_sym, Permutation_nil in Hperm. discriminate. }
    rewrite !required_kudos_of_highest by (assumption || discriminate).
    f_equal. apply round2_comp.
    assert (Heq : (highest_multiplier_from mult 0 (m :: rest)
                   == highest_multiplier_from mult 0 models')%Q).
    { apply Qle_antisym; apply highest_multiplier_incl; intros x Hx.
      - eapply Permutation_in; [exact Hperm | exact Hx].
      - eapply Permutation_in; [apply Permutation_sym, Hperm | exact Hx]. }
    rewrite Heq. reflexivity.
Qed.

(** X2.  Asking for more models never lowers the price: a request that
    names at least one model costs no more than a request that names the
    same models and others. *)
Theorem required_kudos_more_models (models models' : list string) (wp : TextWaitingPrompt.t) :
  models <> [] ->
  incl models models' ->
  0 <= TextWaitingPrompt.max_length wp ->
  0 <= TextWaitingPrompt.n wp ->
  (required_kudos mult models wp <= required_kudos mult models' wp)%Q.
Proof.
  intros Hne Hincl Hml Hn.
  assert (Hne' : models' <> []).
  { destruct models as [|m rest]; [congruence|].
    intros ->. apply (Hincl m). left. reflexivity. }
  rewrite !required_kudos_of_highest by assumption.
  apply price_mono_in_multiplier; try assumption.
  apply highest_multiplier_incl, Hincl.
Qed.

(** X3.  A model listed next to a requested model that costs at least as
    much changes nothing: the price is the one without it. *)
Theorem required_kudos_cheaper_model (models : list string) (cheap dear : string)
    (wp : TextWaitingPrompt.t) :
  In dear models ->
  (mult cheap <= mult dear)%Q ->
  required_kudos mult (cheap :: models) wp = required_kudos mult models wp.
Proof.
  intros Hin Hle.
  assert (Hne : models <> []) by (intros ->; contradiction).
  rewrite !required_kudos_of_highest by (assumption || discriminate).
  f_equal. apply round2_comp.
  assert (Heq : (highest_multiplier_from mult 0 (cheap :: models)
                 == highest_multiplier_from mult 0 models)%Q).
  { apply Qle_antisym.
    - apply highest_multiplier_from_least; [apply highest_multiplier_from_ge|].
      intros m [<- | Hm].
      + eapply Qle_trans; [exact Hle | apply highest_multiplier_from_upper, Hin].
      + apply highest_multiplier_from_upper, Hm.
    - apply highest_multiplier_incl. intros m Hm. right. exact Hm. }
  rewrite Heq. reflexivity.
Qed.

(** X4.  The price is never negative, whatever the cost table says: the
    highest multiplier starts from 0. *)
Theorem required_kudos_nonneg (models : list string) (wp : TextWaitingPrompt.t) :
  0 <= TextWaitingPrompt.max_length wp ->
  0 <= TextWaitingPrompt.n wp ->
  (0 <= required_kudos mult models wp)%Q.
Proof.
  intros Hml Hn.
  destruct models as [|m rest].
  - change (required_kudos mult [] wp) with (inject_Z (20 * TextWaitingPrompt.n wp)).
    change 0%Q with (inject_Z 0). rewrite <- Zle_Qle. lia.
  - rewrite required_kudos_of_highest by discriminate.
    apply Qmult_le_0_compat;
      [|change 0%Q with (inject_Z 0); rewrite <- Zle_Qle; exact Hn].
    apply round2_nonneg.
    assert (H0 : (0 <= inject_Z (TextWaitingPrompt.max_length wp))%Q)
      by (change 0%Q with (inject_Z 0); rewrite <- Zle_Qle; exact Hml).
    pose proof (highest_multiplier_from_ge mult (m :: rest) 0) as Hh.
    unfold Qdiv. apply Qmult_le_0_compat; [|discriminate].
    apply Qmult_le_0_compat; assumption.
Qed.

End Price.

Lemma required_kudos_permutation_witness :
  required_kudos Examples.multiplier ["A"; "B"] Examples.pending
  = required_kudos Examples.multiplier ["B"; "A"] Examples.pending.
Proof.
  apply (required_kudos_permutation Examples.multiplier ["A"; "B"] ["B"; "A"] Examples.pending).
  apply perm_swap.
Defined.

Lemma required_kudos_more_models_witness :
  (required_kudos Examples.multiplier ["A"] Examples.pending
   <= required_kudos Examples.multiplier ["B"; "A"] Examples.pending)%Q.
Proof.
  apply (required_kudos_more_models Examples.multiplier ["A"] ["B"; "A"] Examples.pending).
  - discriminate.
  - intros m [<- | []]. right. left. reflexivity.
  - vm_compute. discriminate.
  - vm_compute. discriminate.
Defined.

Lemma required_kudos_cheaper_model_witness :
  required_kudos Examples.multiplier ["A"; "B"] Examples.pending
  = required_kudos Examples.multiplier ["B"] Examples.pending.
Proof.
  apply (required_kudos_cheaper_model Examples.multiplier ["B"] "A" "B" Examples.pending).
  - left. reflexivity.
  - vm_compute. discriminate.
Defined.

Lemma required_kudos_nonneg_witness :
  (0 <= required_kudos (fun _ => (-3)%Q) ["A"] Examples.pending)%Q.
Proof.
  apply (required_kudos_nonneg (fun _ => (-3)%Q) ["A"] Examples.pending);
    vm_compute; discriminate.
Defined.

(** Naming no model is a flat 20 kudos a text, which can be more than the
    price with a model named. *)
Example required_kudos_flat_price :
  required_kudos Examples.multiplier [] Examples.pending = 60%Q /\
  (required_kudos Examples.multiplier ["A"] Examples.pending == 2286 # 100)%Q.
Proof. split; reflexivity. Qed.

(** ** The admission of a job, further *)

Section AdmissionOutcomes.
Import TextAsyncGenerate.
Variable E : env.

Ltac projections :=
  cbn [built deleted this effects set_wp set_downgrade_wp_priority
       args_style args_allow_downgrade user username sharedkey prompt params
       models nsfw existing_style style_kudos downgrade_wp_priority wp fst snd] in *.

Ltac branch :=
  match goal with
  | |- context [match sharedkey ?s with _ => _ end] => destruct (sharedkey s) eqn:?
  | |- context [if ?b then _ else _] =>
      match type of b with bool => destruct b eqn:? end
  end.


(** X5.  The handler deletes the waiting prompt exactly when it refuses the
    request: an admitted request leaves the waiting prompt and deletes
    nothing, and every refusal has deleted the waiting prompt it built, once. *)
Theorem initiate_deletes_iff_it_raises (w : world) :
  exists job',
    wp (this (snd (initiate_waiting_prompt E w))) = Some job' /\
    match fst (initiate_waiting_prompt E w) with
    | Return _ => effects (snd (initiate_waiting_prompt E w)) = effects w
    | Raise _ =>
        effects (snd (initiate_waiting_prompt E w))
        = (effects w ++ [WpDelete (TextWaitingPrompt.id job')])%list
    end.
Proof.
  rewrite initiate_waiting_prompt_eq.
  destruct (kudos_checks E w) as [r w1] eqn:Hk.
  destruct (kudos_checks_frame E w w1 r Hk) as (_ & _ & job1 & Hwp1 & Heff).
  destruct r as [[]|e].
  - rewrite (sharedkey_limits_check_eq E w1 job1 Hwp1).
    repeat branch; projections; exists job1; rewrite Heff; auto.
  - exists job1. projections. destruct Heff as [_ ->]. auto.
Qed.




End AdmissionOutcomes.

Import TextAsyncGenerate.




(** ** Style application, further *)

Section ApplyStyleOutcomes.
Import TextAsyncGenerate.
Variable E : env.

Ltac fields :=
  cbn [this effects set_prompt set_params set_models set_nsfw set_existing_style
       set_style_kudos set_downgrade_wp_priority set_wp
       args_style args_allow_downgrade user username sharedkey prompt params
       models nsfw existing_style style_kudos downgrade_wp_priority wp fst snd] in *.

Ltac unfold_monad :=
  cbv [super_apply_style the_existing_style lift modify log raise
       mbind mret M_bind M_ret get].

(** The row of a collection once it has served a request. *)
Lemma resolve_collection_run (o : style_obj) (st : Style.t) (w : world) :
  chosen_style E o = Some st ->
  exists w1,
    resolve_collection E o w = (Return st, w1) /\
    prompt (this w1) = prompt (this w) /\
    params (this w1) = params (this w) /\
    user (this w1) = user (this w) /\
    style_kudos (this w1) = style_kudos (this w) /\
    effects w1 =
      (effects w ++
       match o with
       | IsStyle _ => []
       | IsCollection c =>
           [CollectionUse
              (StyleCollection.mk (StyleCollection.id c) (StyleCollection.style_type c)
                 (shuffle E (StyleCollection.styles c)) (StyleCollection.use_count c + 1))]
       end)%list.
Proof.
  destruct o as [st0 | c]; cbn [chosen_style resolve_collection].
  - intros [= ->]. exists w. rewrite app_nil_r. auto 10.
  - destruct (shuffle E (StyleCollection.styles c)) as [|st0 rest] eqn:Hsh; [discriminate|].
    intros [= ->]. eexists. split; [reflexivity|]. fields. auto 10.
Qed.

(** What a style application that returns leaves behind. *)
Lemma apply_style_returned (w : world) (name : string) (o : style_obj)
    (st : Style.t) (p : string) :
  args_style (this w) = Some name ->
  resolve_style E name = Return o ->
  obj_style_type o = "text" ->
  chosen_style E o = Some st ->
  Format.format_map_p (format_with_suffixes E) (Style.prompt st) (prompt (this w)) = Return p ->
  let other := negb (User.id (Style.user st) =? User.id (user (this w))) in
  exists w',
    apply_style E w = (Return tt, w') /\
    prompt (this w') = p /\
    nsfw (this w') = Style.nsfw st /\
    existing_style (this w') = Some (IsStyle (Style.use st)) /\
    style_kudos (this w') = (other || style_kudos (this w)) /\
    effects w' =
      (effects w ++
       match o with
       | IsStyle _ => []
       | IsCollection c =>
           [CollectionUse
              (StyleCollection.mk (StyleCollection.id c) (StyleCollection.style_type c)
                 (shuffle E (StyleCollection.styles c)) (StyleCollection.use_count c + 1))]
       end ++
       (if other then [RecordStyle (Style.user st) 2 "text"] else []) ++
       [Commit])%list.
Proof.
  intros Hstyle Hres Htype Hchosen Hfmt other.
  unfold apply_style.
  cbv [mbind M_bind get]. rewrite Hstyle. unfold_monad.
  rewrite Hres. fields.
  rewrite Htype. change (negb ("text" =? "text")%string) with false. cbv iota beta.
  match goal with |- context [resolve_collection E o ?w0] =>
    destruct (resolve_collection_run o st w0 Hchosen)
      as (w1 & -> & Hp1 & Hq1 & Hu1 & Hk1 & He1)
  end.
  fields. rewrite Hp1, Hfmt. fields. rewrite Hu1. fold other.
  destruct other; (eexists; split; [reflexivity|]); fields;
    rewrite ?Hk1, He1, <- ?List.app_assoc; cbn [app]; auto 10.
Qed.

(** X9.  Every use is counted once: the style the request ends up with has
    its use count raised by one and is otherwise the style as resolved, and
    a collection is counted once as well, with its styles in the shuffled
    order. *)
Theorem apply_style_counts_uses (w : world) (name : string) (o : style_obj)
    (st : Style.t) (p : string) :
  args_style (this w) = Some name ->
  resolve_style E name = Return o ->
  obj_style_type o = "text" ->
  chosen_style E o = Some st ->
  Format.format_map_p (format_with_suffixes E) (Style.prompt st) (prompt (this w)) = Return p ->
  exists w' st',
    apply_style E w = (Return tt, w') /\
    existing_style (this w') = Some (IsStyle st') /\
    Style.use_count st' = Style.use_count st + 1 /\
    Style.id st' = Style.id st /\
    Style.params st' = Style.params st /\
    Style.prompt st' = Style.prompt st /\
    match o with
    | IsStyle _ => forall c, ~ In (CollectionUse c) (skipn (length (effects w)) (effects w'))
    | IsCollection c =>
        exists c',
          In (CollectionUse c') (effects w') /\
          StyleCollection.use_count c' = StyleCollection.use_count c + 1 /\
          StyleCollection.styles c' = shuffle E (StyleCollection.styles c)
    end.
Proof.
  intros Hstyle Hres Htype Hchosen Hfmt.
  destruct (apply_style_returned w name o st p Hstyle Hres Htype Hchosen Hfmt)
    as (w' & Hrun & _ & _ & Hst & _ & Heff).
  exists w', (Style.use st). split; [exact Hrun|]. split; [exact Hst|].
  repeat (split; [reflexivity|]).
  rewrite Heff. destruct o as [st0 | c].
  - intros c. rewrite skipn_app, skipn_all, Nat.sub_diag. cbn [app skipn].
    destruct (negb (User.id (Style.user st) =? User.id (user (this w))));
      cbn; intros H; intuition discriminate.
  - eexists. split.
    { apply in_or_app. right. left. reflexivity. }
    split; reflexivity.
Qed.

(** X10.  The author of a style is rewarded only for the use others make of
    it: the reward of 2 kudos is recorded and [style_kudos] set when the
    user of the request is not the owner of the style, and neither happens
    when the owner uses the style. *)
Theorem apply_style_rewards_other_users (w : world) (name : string) (o : style_obj)
    (st : Style.t) (p : string) :
  args_style (this w) = Some name ->
  resolve_style E name = Return o ->
  obj_style_type o = "text" ->
  chosen_style E o = Some st ->
  Format.format_map_p (format_with_suffixes E) (Style.prompt st) (prompt (this w)) = Return p ->
  exists w',
    apply_style E w = (Return tt, w') /\
    (User.id (Style.user st) <> User.id (user (this w)) ->
     style_kudos (this w') = true /\
     exists before, effects w' = (before ++ [RecordStyle (Style.user st) 2 "text"; Commit])%list) /\
    (User.id (Style.user st) = User.id (user (this w)) ->
     style_kudos (this w') = style_kudos (this w) /\
     forall u kudos ty,
       ~ In (RecordStyle u kudos ty) (skipn (length (effects w)) (effects w'))).
Proof.
  intros Hstyle Hres Htype Hchosen Hfmt.
  destruct (apply_style_returned w name o st p Hstyle Hres Htype Hchosen Hfmt)
    as (w' & Hrun & _ & _ & _ & Hkudos & Heff).
  exists w'. split; [exact Hrun|]. split.
  - intros Hne. apply Z.eqb_neq in Hne. rewrite Hne in Hkudos, Heff. cbn [negb orb] in *.
    split; [exact Hkudos|]. rewrite Heff.
    eexists. rewrite List.app_assoc. reflexivity.
  - intros Heq. apply Z.eqb_eq in Heq. rewrite Heq in Hkudos, Heff. cbn [negb orb] in *.
    split; [exact Hkudos|]. intros u k ty. rewrite Heff.
    rewrite skipn_app, skipn_all, Nat.sub_diag. cbn [app skipn].
    destruct o; cbn; intros H; intuition discriminate.
Qed.

(** X11.  A style application that fails commits nothing: the prompt and
    the parameters of the request are as the user sent them, no reward is
    recorded, and the only row touched in memory is the collection that was
    shuffled and counted before the failure. *)
Theorem apply_style_failure_commits_nothing (w w' : world) (e : exception) :
  apply_style E w = (Raise e, w') ->
  prompt (this w') = prompt (this w) /\
  params (this w') = params (this w) /\
  (effects w' = effects w \/
   exists c, effects w' = (effects w ++ [CollectionUse c])%list).
Proof.
  unfold apply_style. cbv [mbind M_bind get].
  destruct (args_style (this w)) as [name|]; [|discriminate].
  unfold_monad.
  destruct (resolve_style E name) as [o|e0]; [|intros [= <- <-]; auto].
  fields.
  destruct (negb (String.eqb (obj_style_type o) "text")); [intros [= <- <-]; fields; auto|].
  destruct o as [st | c]; cbn [resolve_collection]; unfold_monad; fields.
  - destruct (Format.format_map_p (format_with_suffixes E) (Style.prompt st) (prompt (this w)))
      as [p|e0]; fields.
    + destruct (negb (User.id (Style.user st) =? User.id (user (this w)))); discriminate.
    + intros [= <- <-]. fields. auto.
  - destruct (shuffle E (StyleCollection.styles c)) as [|st rest]; fields.
    + intros [= <- <-]. fields. auto.
    + destruct (Format.format_map_p (format_with_suffixes E) (Style.prompt st)
                  (prompt (this w))) as [p|e0]; fields.
      * destruct (negb (User.id (Style.user st) =? User.id (user (this w)))); discriminate.
      * intros [= <- <-]. fields. eauto.
Qed.

(** X12.  A style that is not a text style is refused with the reason
    [StyleMismatch]; the request keeps its prompt, parameters and models. *)
Theorem apply_style_refuses_other_types (w : world) (name : string) (o : style_obj) :
  args_style (this w) = Some name ->
  resolve_style E name = Return o ->
  obj_style_type o <> "text" ->
  exists w',
    apply_style E w
    = (Raise (BadRequest (Text "Image styles cannot be used on image requests")
                (Some "StyleMismatch")), w') /\
    prompt (this w') = prompt (this w) /\
    params (this w') = params (this w) /\
    models (this w') = models (this w) /\
    effects w' = effects w.
Proof.
  intros Hstyle Hres Htype.
  unfold apply_style. cbv [mbind M_bind get]. rewrite Hstyle. unfold_monad.
  rewrite Hres. fields.
  apply String.eqb_neq in Htype. rewrite Htype. cbn [negb].
  eexists. split; [reflexivity|]. fields. auto.
Qed.

(** X13.  A collection without styles cannot be applied: taking the first
    style of the shuffled list raises [IndexError]; the collection has been
    counted in memory by then, and nothing is committed. *)
Theorem apply_style_empty_collection (w : world) (name : string) (c : StyleCollection.t) :
  args_style (this w) = Some name ->
  resolve_style E name = Return (IsCollection c) ->
  StyleCollection.style_type c = "text" ->
  StyleCollection.styles c = [] ->
  shuffle E [] = [] ->
  exists w',
    apply_style E w = (Raise IndexError, w') /\
    existing_style (this w')
    = Some (IsCollection
              (StyleCollection.mk (StyleCollection.id c) "text" []
                 (StyleCollection.use_count c + 1))) /\
    effects w' = effects w.
Proof.
  intros Hstyle Hres Htype Hstyles Hshuffle.
  unfold apply_style. cbv [mbind M_bind get]. rewrite Hstyle. unfold_monad.
  rewrite Hres. fields. cbn [obj_style_type]. rewrite Htype.
  change (negb ("text" =? "text")%string) with false. cbv iota beta.
  cbn [resolve_collection]. unfold_monad. rewrite Hstyles, Hshuffle, Htype. fields.
  eexists. split; [reflexivity|]. fields. auto.
Qed.

End ApplyStyleOutcomes.

Import TextAsyncGenerate.

Lemma apply_style_counts_uses_witness :
  let w := Examples.start (Examples.styled "tales" ∅) in
  exists w' st',
    apply_style Examples.horde w = (Return tt, w') /\
    existing_style (this w') = Some (IsStyle st') /\
    Style.id st' = "style-1" /\
    Style.use_count st' = 1 /\
    In (CollectionUse
          (StyleCollection.mk "collection-1" "text" [Examples.storyteller; Examples.narrator] 6))
       (effects w').
Proof.
  intros w.
  destruct (apply_style_counts_uses Examples.horde w "tales" (IsCollection Examples.tales)
              Examples.storyteller "Once upon a time a dragon "
              eq_refl eq_refl eq_refl eq_refl eq_refl)
    as (w' & st' & Hrun & Hst & Hcount & Hid & _ & _ & c' & Hin & _).
  exists w', st'. split; [exact Hrun|]. split; [exact Hst|].
  split; [exact Hid|]. split; [exact Hcount|].
  assert (Hw : w' = snd (apply_style Examples.horde w)) by (rewrite Hrun; reflexivity).
  rewrite Hw. left. reflexivity.
Defined.

Lemma apply_style_rewards_other_users_witness :
  let w := Examples.start (Examples.styled "storyteller" ∅) in
  exists w',
    apply_style Examples.horde w = (Return tt, w') /\
    style_kudos (this w') = true /\
    exists before, effects w' = (before ++ [RecordStyle Examples.bob 2 "text"; Commit])%list.
Proof.
  intros w.
  destruct (apply_style_rewards_other_users Examples.horde w "storyteller"
              (IsStyle Examples.storyteller) Examples.storyteller
              "Once upon a time a dragon " eq_refl eq_refl eq_refl eq_refl eq_refl)
    as (w' & Hrun & Hother & _).
  exists w'. split; [exact Hrun|]. apply Hother. discriminate.
Defined.

(** The owner of a style earns nothing by using it. *)
Example apply_own_style :
  let w' := snd (apply_style Cases.gallery (Examples.start (Examples.styled "diary" ∅))) in
  style_kudos (this w') = false /\ effects w' = [Commit] /\
  prompt (this w') = "Dear diary, a dragon".
Proof. repeat split. Qed.

Lemma apply_style_failure_commits_nothing_witness :
  let w := Examples.start (Examples.styled "narrator" (<["n" := Py.Int 2]> ∅)) in
  let w' := snd (apply_style Examples.horde w) in
  prompt (this w') = "a dragon" /\
  params (this w') = <["n" := Py.Int 2]> ∅ /\
  (effects w' = effects w \/ exists c, effects w' = (effects w ++ [CollectionUse c])%list).
Proof.
  intros w w'.
  exact (apply_style_failure_commits_nothing Examples.horde w w'
           (ValueError "Format string contains positional fields") eq_refl).
Defined.

Lemma apply_style_refuses_other_types_witness :
  let w := Examples.start (Examples.styled "portrait" ∅) in
  exists w',
    apply_style Cases.gallery w
    = (Raise (BadRequest (Text "Image styles cannot be used on image requests")
                (Some "StyleMismatch")), w') /\
    prompt (this w') = "a dragon" /\
    models (this w') = ["A"].
Proof.
  intros w.
  destruct (apply_style_refuses_other_types Cases.gallery w "portrait" (IsStyle Cases.portrait)
              eq_refl eq_refl) as (w' & Hrun & Hp & _ & Hm & _); [discriminate|].
  exists w'. split; [exact Hrun|]. split; [exact Hp | exact Hm].
Defined.

Lemma apply_style_empty_collection_witness :
  let w := Examples.start (Examples.styled "nothing" ∅) in
  exists w', apply_style Cases.gallery w = (Raise IndexError, w') /\ effects w' = [].
Proof.
  intros w.
  destruct (apply_style_empty_collection Cases.gallery w "nothing" Cases.nothing
              eq_refl eq_refl eq_refl eq_refl eq_refl) as (w' & Hrun & _ & Heff).
  exists w'. split; [exact Hrun | exact Heff].
Defined.

(** ** The interpolation of the prompt, further *)

Section Interpolation.
Import Format.





Lemma scan_without_braces (mapping : string -> string) (t : string) :
  forallb no_brace (list_ascii_of_string t) = true ->
  scan mapping InText t = Some (Return t).
Proof.
  induction t as [|c r IH]; [reflexivity|].
  cbn [list_ascii_of_string forallb]. intros H. apply andb_true_iff in H as [Hc Hr].
  unfold no_brace in Hc. apply negb_true_iff, orb_false_iff in Hc as [H1 H2].
  cbn [scan]. rewrite H1, H2, (IH Hr). reflexivity.
Qed.

(** X15.  A template without braces has no slot for the prompt: the
    interpolation returns the template as it is, whatever the user wrote. *)
Theorem format_map_without_slot (format_with_suffixes : string -> string -> result string)
    (template prompt : string) :
  forallb no_brace (list_ascii_of_string template) = true ->
  format_map_p format_with_suffixes template prompt = Return template.
Proof.
  intros H. unfold format_map_p. rewrite (scan_without_braces _ _ H). reflexivity.
Qed.

End Interpolation.

Lemma format_map_without_slot_witness :
  Format.format_map_p (TextAsyncGenerate.format_with_suffixes Examples.horde)
    "Tell me a story." "a dragon"
  = Return "Tell me a story.".
Proof.
  exact (format_map_without_slot (TextAsyncGenerate.format_with_suffixes Examples.horde)
           "Tell me a story." "a dragon" eq_refl).
Defined.

(** ** Status and cancellation, further *)

Section StatusAndCancel.
Import TextAsyncStatus.
Variable get_status : TextWaitingPrompt.t -> Q -> bool -> list Z -> Z * Z -> status.

(** The cancel handler, found or not, leaves the table with the row of the
    id altered and everything else of the database as it was. *)
Lemma delete_database (id : string) (db : database) :
  snd (delete get_status id db)
  = set_text_wps (alter (TextWaitingPrompt.set_n 0) id (text_wps db)) db.
Proof.
  unfold delete. destruct (text_wps db !! id) as [job|] eqn:Hjob; cbn [snd].
  - reflexivity.
  - rewrite (alter_id' _ _ _ Hjob), set_text_wps_same. reflexivity.
Qed.

(** X16.  An id that is not in the table: the status handler and the cancel
    handler both raise [RequestNotFound] with the id, each under its own
    request type, and the database is left as it was. *)
Theorem unknown_id_is_not_found (id : string) (db : database) :
  text_wps db !! id = None ->
  get get_status id db = (Raise (RequestNotFound id "Text Waiting Prompt (Status)"), db) /\
  delete get_status id db = (Raise (RequestNotFound id "Text Waiting Prompt (Delete)"), db).
Proof.
  intros Hnone. unfold get, delete. rewrite Hnone. split; reflexivity.
Qed.

(** X17.  The cancel handler never removes a waiting prompt, nor adds one:
    the ids of the table are the same after it, found or not, and so are the
    signals of the database. *)
Theorem delete_keeps_every_row (id : string) (db : database) :
  let db' := snd (delete get_status id db) in
  dom (text_wps db') = dom (text_wps db) /\
  get_request_avg db' = get_request_avg db /\
  wp_has_valid_workers db' = wp_has_valid_workers db /\
  get_wp_queue_stats db' = get_wp_queue_stats db /\
  count_active_workers db' = count_active_workers db.
Proof.
  intros db'. unfold db'. rewrite delete_database.
  cbn [set_text_wps text_wps get_request_avg wp_has_valid_workers get_wp_queue_stats
       count_active_workers].
  rewrite dom_alter_L. auto.
Qed.

(** X18.  After a cancellation the status handler reports the waiting
    prompt with [n = 0]: the status of the cancelled row, not the status the
    cancellation itself returned. *)
Theorem get_after_delete (id : string) (db : database) (job : TextWaitingPrompt.t) :
  text_wps db !! id = Some job ->
  let db' := snd (delete get_status id db) in
  get get_status id db'
  = (Return (wp_status get_status db' (TextWaitingPrompt.set_n 0 job), 200), db').
Proof.
  intros Hjob db'. unfold get.
  assert (Hrow : text_wps db' !! id = Some (TextWaitingPrompt.set_n 0 job)).
  { unfold db'. rewrite delete_database. cbn [set_text_wps text_wps].
    rewrite lookup_alter_eq, Hjob. reflexivity. }
  rewrite Hrow. reflexivity.
Qed.

(** X19.  Cancellations do not interfere: two of them, on the same id or
    on different ones, found or not, leave the same database in either
    order. *)
Theorem delete_commutes (id1 id2 : string) (db : database) :
  snd (delete get_status id1 (snd (delete get_status id2 db)))
  = snd (delete get_status id2 (snd (delete get_status id1 db))).
Proof.
  rewrite !delete_database. cbn [set_text_wps text_wps get_request_avg wp_has_valid_workers
                                 get_wp_queue_stats count_active_workers].
  assert (Htable : alter (TextWaitingPrompt.set_n 0) id1
                     (alter (TextWaitingPrompt.set_n 0) id2 (text_wps db))
                   = alter (TextWaitingPrompt.set_n 0) id2
                       (alter (TextWaitingPrompt.set_n 0) id1 (text_wps db))).
  { destruct (decide (id1 = id2)) as [-> | Hne]; [reflexivity|].
    apply alter_alter_ne. exact Hne. }
  rewrite Htable. reflexivity.
Qed.

End StatusAndCancel.

Lemma unknown_id_is_not_found_witness :
  TextAsyncStatus.delete Examples.show_status "wp-404" Examples.queue
  = (Raise (RequestNotFound "wp-404" "Text Waiting Prompt (Delete)"), Examples.queue).
Proof.
  destruct (unknown_id_is_not_found Examples.show_status "wp-404" Examples.queue eq_refl)
    as [_ H].
  exact H.
Defined.

Lemma get_after_delete_witness :
  let db' := snd (TextAsyncStatus.delete Examples.show_status "wp-1" Examples.queue) in
  exists st,
    fst (TextAsyncStatus.get Examples.show_status "wp-1" db') = Return (st, 200) /\
    st !! "waiting" = Some (Py.Int 0).
Proof.
  intros db'.
  pose proof (get_after_delete Examples.show_status "wp-1" Examples.queue Examples.pending
                eq_refl) as H.
  fold db' in H. eexists. split; [rewrite H; reflexivity | reflexivity].
Defined.

(** ** The kudos transfer, further *)

Section TransferOutcomes.
Import KoboldKudosTransfer.

(** X20.  A transfer from the KoboldAI Horde to a user that does not exist
    raises [UserNotFound] with the id asked for and changes no row. *)
Theorem post_unknown_user (set_trusted : User.t -> bool -> User.t)
    (modify_kudos : User.t -> Z -> string -> User.t)
    (req : request) (a : args) (users : gmap string User.t) :
  remote_addr req = "167.86.124.45" ->
  users !! user_id req = None ->
  post set_trusted modify_kudos req a users = (Raise (UserNotFound (user_id req)), users).
Proof.
  intros Haddr Hnone. unfold post. rewrite Haddr, Hnone. reflexivity.
Qed.

(** X21.  A transfer that goes through writes the row of the target user
    and no other, and the balance it answers with is the balance it stored. *)
Theorem post_writes_one_row (set_trusted : User.t -> bool -> User.t)
    (modify_kudos : User.t -> Z -> string -> User.t)
    (req : request) (a : args) (users : gmap string User.t) (u : User.t) :
  remote_addr req = "167.86.124.45" ->
  users !! user_id req = Some u ->
  exists u' users',
    post set_trusted modify_kudos req a users = (Return (User.kudos u', 200), users') /\
    users' !! user_id req = Some u' /\
    (forall other, other <> user_id req -> users' !! other = users !! other) /\
    dom users' = dom users.
Proof.
  intros Haddr Hu. rewrite (post_trusted_caller set_trusted modify_kudos req a users u Haddr Hu).
  cbv zeta. eexists _, _. split; [reflexivity|].
  split; [apply lookup_insert_eq|]. split.
  - intros other Hne. apply lookup_insert_ne. congruence.
  - apply dom_insert_lookup_L. rewrite Hu. eauto.
Qed.

(** X22.  A transfer can grant trust and cannot take it away: the only
    call of [set_trusted] it makes passes [True], and it makes none for a
    user who is trusted already or when the request does not vouch for the
    user. *)
Theorem post_only_grants_trust (set_trusted set_trusted' : User.t -> bool -> User.t)
    (modify_kudos : User.t -> Z -> string -> User.t)
    (req : request) (a : args) (users : gmap string User.t) :
  (forall u, set_trusted u true = set_trusted' u true) ->
  post set_trusted modify_kudos req a users = post set_trusted' modify_kudos req a users /\
  (forall u, users !! user_id req = Some u ->
     User.trusted u = true \/ trusted a = false ->
     remote_addr req = "167.86.124.45" ->
     snd (post set_trusted modify_kudos req a users)
     = <[user_id req := modify_kudos u (kudos_amount a) "koboldai"]> users).
Proof.
  intros Hagree. split.
  - unfold post.
    destruct (negb (String.eqb (remote_addr req) "167.86.124.45")); [reflexivity|].
    destruct (users !! user_id req) as [u|]; [|reflexivity].
    destruct (User.trusted u), (trusted a); cbn [negb andb]; rewrite ?Hagree; reflexivity.
  - intros u Hu Hno Haddr. unfold post. rewrite Haddr, Hu. cbn [negb String.eqb].
    change (negb ("167.86.124.45" =? "167.86.124.45")%string) with false. cbv iota.
    destruct Hno as [Ht | Ha]; [rewrite Ht | rewrite Ha, andb_false_r]; reflexivity.
Qed.

End TransferOutcomes.

Lemma post_unknown_user_witness :
  KoboldKudosTransfer.post Examples.trust Examples.credit
    (KoboldKudosTransfer.Request "167.86.124.45" "99")
    (KoboldKudosTransfer.Args 42 1000 true) Examples.accounts
  = (Raise (UserNotFound "99"), Examples.accounts).
Proof.
  exact (post_unknown_user Examples.trust Examples.credit
           (KoboldKudosTransfer.Request "167.86.124.45" "99")
           (KoboldKudosTransfer.Args 42 1000 true) Examples.accounts eq_refl eq_refl).
Defined.

Lemma post_writes_one_row_witness :
  exists u' users',
    KoboldKudosTransfer.post Examples.trust Examples.credit
      (KoboldKudosTransfer.Request "167.86.124.45" "7")
      (KoboldKudosTransfer.Args 42 1000 false) Examples.accounts
    = (Return (User.kudos u', 200), users') /\
    users' !! "7" = Some u' /\ (User.kudos u' == 1010)%Q.
Proof.
  destruct (post_writes_one_row Examples.trust Examples.credit
              (KoboldKudosTransfer.Request "167.86.124.45" "7")
              (KoboldKudosTransfer.Args 42 1000 false) Examples.accounts Examples.alice
              eq_refl eq_refl) as (u' & users' & Hrun & Hrow & _ & _).
  exists u', users'. split; [exact Hrun|]. split; [exact Hrow|].
  assert (Hu : Some u' = Some (Examples.credit Examples.alice 1000 "koboldai")).
  { rewrite <- Hrow.
    assert (Hs : users' = snd (KoboldKudosTransfer.post Examples.trust Examples.credit
                                 (KoboldKudosTransfer.Request "167.86.124.45" "7")
                                 (KoboldKudosTransfer.Args 42 1000 false) Examples.accounts))
      by (rewrite Hrun; reflexivity).
    rewrite Hs. reflexivity. }
  injection Hu as ->. reflexivity.
Defined.

Lemma post_only_grants_trust_witness :
  KoboldKudosTransfer.post Examples.trust Examples.credit
    (KoboldKudosTransfer.Request "167.86.124.45" "7")
    (KoboldKudosTransfer.Args 42 1000 true) Examples.accounts
  = KoboldKudosTransfer.post (fun u _ => Examples.trust u true) Examples.credit
      (KoboldKudosTransfer.Request "167.86.124.45" "7")
      (KoboldKudosTransfer.Args 42 1000 true) Examples.accounts.
Proof.
  destruct (post_only_grants_trust Examples.trust (fun u _ => Examples.trust u true)
              Examples.credit (KoboldKudosTransfer.Request "167.86.124.45" "7")
              (KoboldKudosTransfer.Args 42 1000 true) Examples.accounts
              (fun u => eq_refl)) as [H _].
  exact H.
Defined.

(** ** The answer to a generation request *)


Section PostAnswer.
Import TextAsyncGenerate GeneratePost.
Variable super_post : M Q.
Variable dry_run : bool.
Variable wp_has_valid_workers : TextWaitingPrompt.t -> bool.
Variable mode_raid : bool.


(** The handler turns no failure into an answer: an exception of the
    parent's [post] is raised as it came, with the state the parent left. *)
Lemma post_raises_what_parent_raises (w w1 : world) (e : exception) :
  super_post w = (Raise e, w1) ->
  post super_post dry_run wp_has_valid_workers mode_raid w = (Raise e, w1).
Proof.
  intros H. unfold post. cbv [mbind M_bind]. rewrite H. reflexivity.
Qed.

End PostAnswer.

